(** * lyskamm: scripts/rocket_simulator.py

    A shallow embedding of the motor-file parser [EngineParser] and of the
    trajectory integrator [RocketSimulator], followed by the properties of
    the specification that are settled on it.

    Numbers.  Python computes with binary64 floats; the embedding computes
    with exact rationals [Q].  An equation [=] between numbers says which
    operations the code performs on which operands and holds whatever the
    rounding.  [==] and [<=] between computed values speak of the exact
    values, and a theorem says so where its equation holds in exact
    arithmetic only.  Where the rounding decides a property, module
    [Binary64] evaluates the same methods in binary64.

    Division by zero has no rational value.  Python scalars raise
    [ZeroDivisionError] there; with a numpy scalar or array among the
    operands the quotient is nan or an infinity (under a RuntimeWarning)
    and the script computes on with it.  The embedding marks that outcome
    [NonFinite] and does not follow it further. *)

From Stdlib Require Import Floats.
From Stdlib Require Import Strings.Byte Strings.Ascii Strings.String.
From Stdlib Require Import QArith Qround Lqa Lia ZArith NArith List Bool.
Import ListNotations.
Open Scope Q_scope.
Set Warnings "-inexact-float".

(** ** Python values and control *)

Module Py.

Inductive exn : Set :=
| ZeroDivisionError
| UnboundLocalError
| ValueError
| FileNotFoundError.

(** What evaluating an expression gives: a value, an exception, or, for
    a number, nan or an infinity, which no rational stands for.  The
    script computes on with such a number; the embedding stops at it. *)
Inductive result (A : Type) : Type :=
| Ok (a : A)
| Raise (e : exn)
| NonFinite.
Arguments Ok {A} a.
Arguments Raise {A} e.
Arguments NonFinite {A}.

Definition bind {A B : Type} (c : result A) (k : A -> result B) : result B :=
  match c with
  | Ok a => k a
  | Raise e => Raise e
  | NonFinite => NonFinite
  end.

(** [a / b] on Python scalars *)
Definition truediv (a b : Q) : result Q :=
  if Qeq_bool b 0 then Raise ZeroDivisionError else Ok (a / b).

(** [a <= b], [a < b] as conditions of an [if] *)
Definition le (a b : Q) : bool := Qle_bool a b.
Definition lt (a b : Q) : bool := negb (Qle_bool b a).

(** [x if x else 0] on a local that is [None] or a number: [None] and
    zero are both false. *)
Definition or_zero (x : option Q) : Q :=
  match x with
  | Some q => if Qeq_bool q 0 then 0 else q
  | None => 0
  end.

End Py.

Import Py.

Notation "x <- c ;; k" := (Py.bind c (fun x => k))
  (at level 61, c at next level, right associativity).

(** ** numpy and scipy routines the script calls *)

Module Np.

(** [np.trapezoid(y, x)]: the sum of [(x[i+1] - x[i]) * (y[i+1] + y[i]) / 2]. *)
Fixpoint trapezoid (y x : list Q) : Q :=
  match y, x with
  | y0 :: y', x0 :: x' =>
      match y', x' with
      | y1 :: _, x1 :: _ => (x1 - x0) * (y1 + y0) / 2 + trapezoid y' x'
      | _, _ => 0
      end
  | _, _ => 0
  end.

(** [np.argsort(x, kind="mergesort")] applied to both arrays: a stable
    sort of the points by abscissa. *)
Fixpoint insert (p : Q * Q) (l : list (Q * Q)) : list (Q * Q) :=
  match l with
  | [] => [p]
  | q :: l' => if Py.le (fst p) (fst q) then p :: l else q :: insert p l'
  end.

Definition sort_points (l : list (Q * Q)) : list (Q * Q) :=
  fold_right insert [] l.

(** The linear piece: with [lo] and [hi] the bracketing points,
    [slope * (x_new - x_lo) + y_lo]. *)
Definition segment (lo hi : Q * Q) (x_new : Q) : Q :=
  let slope := (snd hi - snd lo) / (fst hi - fst lo) in
  slope * (x_new - fst lo) + snd lo.

(** [np.interp] on the sorted points, which [interp1d] calls for a linear
    curve of floats: the search finds the last point [lo] whose abscissa
    is not above [x_new] ([hi] is the first point above it).  At the last
    point, and at a query that is the abscissa of [lo], the ordinate of
    [lo] is returned as it is; else the linear piece.  (The second try
    that [np.interp] makes when the piece is not-a-number has no place
    among rationals; it is in [Binary64.call_linear].) *)
Fixpoint call_linear (lo : Q * Q) (rest : list (Q * Q)) (x_new : Q) : Q :=
  match rest with
  | [] => snd lo
  | hi :: rest' =>
      if Py.lt x_new (fst hi) then
        if Qeq_bool (fst lo) x_new then snd lo else segment lo hi x_new
      else call_linear hi rest' x_new
  end.

(** [a / b] with a numpy scalar or array among the operands: no
    exception, nan or an infinity for a zero divisor. *)
Definition true_divide (a b : Q) : result Q :=
  if Qeq_bool b 0 then NonFinite else Ok (a / b).

(** [a / b], where [numpy] tells whether an operand is numpy's. *)
Definition divide (numpy : bool) (a b : Q) : result Q :=
  if numpy then true_divide a b else Py.truediv a b.

(** [interp1d(x, y, kind='linear', bounds_error=False, fill_value=0)]:
    the points are sorted, a query outside [[x[0], x[-1]]] is filled with
    [0], a query inside is interpolated by [np.interp]. *)
Definition interp1d (x y : list Q) (x_new : Q) : Q :=
  match sort_points (combine x y) with
  | [] => 0
  | p0 :: rest =>
      let below := Py.lt x_new (fst p0) in
      let above := Py.lt (fst (last rest p0)) x_new in
      if below || above then 0 else call_linear p0 rest x_new
  end.

End Np.

(** ** Text: [str] values and the codecs of [open(..., encoding=...)] *)

Module Text.

(** A [str] is its sequence of code points. *)
Definition str : Set := list N.

Definition of_string (s : string) : str :=
  map N_of_ascii (list_ascii_of_string s).

Definition in_range (lo hi c : N) : bool := ((lo <=? c) && (c <=? hi))%N.

(** [c.isspace()] *)
Definition isspace (c : N) : bool :=
  in_range 0x09 0x0D c || in_range 0x1C 0x20 c
  || (c =? 0x85)%N || (c =? 0xA0)%N || (c =? 0x1680)%N
  || in_range 0x2000 0x200A c || (c =? 0x2028)%N || (c =? 0x2029)%N
  || (c =? 0x202F)%N || (c =? 0x205F)%N || (c =? 0x3000)%N.

Fixpoint lstrip (s : str) : str :=
  match s with
  | c :: s' => if isspace c then lstrip s' else s
  | [] => []
  end.

(** [s.strip()] *)
Definition strip (s : str) : str := rev (lstrip (rev (lstrip s))).

(** [s.split()]: the maximal runs of non-space characters.  [cur] is the
    run being read, reversed. *)
Fixpoint split_from (cur : str) (s : str) : list str :=
  match s with
  | [] => match cur with [] => [] | _ :: _ => [rev cur] end
  | c :: s' =>
      if isspace c then
        match cur with
        | [] => split_from [] s'
        | _ :: _ => rev cur :: split_from [] s'
        end
      else split_from (c :: cur) s'
  end.

Definition split (s : str) : list str := split_from [] s.

(** [s.startswith(';')] *)
Definition startswith_semicolon (s : str) : bool :=
  match s with
  | c :: _ => (c =? 0x3B)%N
  | [] => false
  end.

(** [f.readlines()] of a text file opened with universal newlines: the
    terminators [\n], [\r] and [\r\n] all end a line and are read as
    [\n]. *)
Fixpoint readlines_from (cur : str) (s : str) : list str :=
  match s with
  | [] => match cur with [] => [] | _ :: _ => [rev cur] end
  | c :: s' =>
      if (c =? 0x0A)%N then rev (0x0A%N :: cur) :: readlines_from [] s'
      else if (c =? 0x0D)%N then
        match s' with
        | c' :: s'' =>
            if (c' =? 0x0A)%N then rev (0x0A%N :: cur) :: readlines_from [] s''
            else rev (0x0A%N :: cur) :: readlines_from [] s'
        | [] => [rev (0x0A%N :: cur)]
        end
      else readlines_from (c :: cur) s'
  end.

Definition readlines (s : str) : list str := readlines_from [] s.

End Text.

Module Codec.

Import Text.

Inductive encoding : Set :=
| utf_8
| latin_1
| windows_1252
| iso_8859_1
| cp1252.

(** ['latin-1'] (alias ['iso-8859-1']): every byte is its code point. *)
Definition decode_latin_1 (bs : list byte) : option str :=
  Some (map Byte.to_N bs).

(** ['cp1252'] (alias ['windows-1252']): five bytes are unassigned. *)
Definition cp1252_char (c : N) : option N :=
  if in_range 0x80 0x9F c then
    nth (N.to_nat (c - 0x80))
      [ Some 0x20AC; None;        Some 0x201A; Some 0x0192
      ; Some 0x201E; Some 0x2026; Some 0x2020; Some 0x2021
      ; Some 0x02C6; Some 0x2030; Some 0x0160; Some 0x2039
      ; Some 0x0152; None;        Some 0x017D; None
      ; None;        Some 0x2018; Some 0x2019; Some 0x201C
      ; Some 0x201D; Some 0x2022; Some 0x2013; Some 0x2014
      ; Some 0x02DC; Some 0x2122; Some 0x0161; Some 0x203A
      ; Some 0x0153; None;        Some 0x017E; Some 0x0178 ]%N None
  else Some c.

Fixpoint decode_cp1252 (bs : list byte) : option str :=
  match bs with
  | [] => Some []
  | b :: bs' =>
      match cp1252_char (Byte.to_N b), decode_cp1252 bs' with
      | Some c, Some s => Some (c :: s)
      | _, _ => None
      end
  end.

(** ['utf-8'], strict: shortest form only, no surrogates, at most
    U+10FFFF. *)
Definition cont (c : N) : bool := in_range 0x80 0xBF c.
Definition low6 (c : N) : N := (c - 0x80)%N.

Definition second_of_3 (n0 n1 : N) : bool :=
  if (n0 =? 0xE0)%N then in_range 0xA0 0xBF n1
  else if (n0 =? 0xED)%N then in_range 0x80 0x9F n1
  else cont n1.

Definition second_of_4 (n0 n1 : N) : bool :=
  if (n0 =? 0xF0)%N then in_range 0x90 0xBF n1
  else if (n0 =? 0xF4)%N then in_range 0x80 0x8F n1
  else cont n1.

Fixpoint decode_utf_8 (bs : list byte) : option str :=
  match bs with
  | [] => Some []
  | b0 :: r0 =>
      let n0 := Byte.to_N b0 in
      if (n0 <? 0x80)%N then option_map (cons n0) (decode_utf_8 r0)
      else
        match r0 with
        | [] => None
        | b1 :: r1 =>
            let n1 := Byte.to_N b1 in
            if in_range 0xC2 0xDF n0 then
              if cont n1
              then option_map (cons ((n0 - 0xC0) * 64 + low6 n1)%N)
                              (decode_utf_8 r1)
              else None
            else
              match r1 with
              | [] => None
              | b2 :: r2 =>
                  let n2 := Byte.to_N b2 in
                  if in_range 0xE0 0xEF n0 then
                    if second_of_3 n0 n1 && cont n2
                    then option_map
                           (cons ((n0 - 0xE0) * 4096 + low6 n1 * 64
                                  + low6 n2)%N)
                           (decode_utf_8 r2)
                    else None
                  else
                    match r2 with
                    | [] => None
                    | b3 :: r3 =>
                        let n3 := Byte.to_N b3 in
                        if in_range 0xF0 0xF4 n0
                           && second_of_4 n0 n1 && cont n2 && cont n3
                        then option_map
                               (cons ((n0 - 0xF0) * 262144 + low6 n1 * 4096
                                      + low6 n2 * 64 + low6 n3)%N)
                               (decode_utf_8 r3)
                        else None
                    end
              end
        end
  end.

Definition decode (e : encoding) (bs : list byte) : option str :=
  match e with
  | utf_8 => decode_utf_8 bs
  | latin_1 | iso_8859_1 => decode_latin_1 bs
  | windows_1252 | cp1252 => decode_cp1252 bs
  end.

End Codec.

(** ** class EngineParser *)

Module EngineParser.

Import Text.

(** The attributes set by [__init__].  [filepath] is represented by what
    [open(self.filepath)] finds: the bytes of the file, or nothing. *)
Record t : Type := mk
  { name : str
  ; diameter : Q
  ; length : Q
  ; propellant_mass : Q
  ; total_mass : Q
  ; time : list Q
  ; thrust : list Q }.

Definition init : t := mk [] 0 0 0 0 [] [].

Definition encodings : list Codec.encoding :=
  [Codec.utf_8; Codec.latin_1; Codec.windows_1252; Codec.iso_8859_1;
   Codec.cp1252].

(** One turn of [for encoding in encodings]: [lines] is the local
    variable, unbound ([None]) before the first successful read.  A
    decoding error is caught and the turn ends; a successful read binds
    [lines] and the loop goes on to the next encoding. *)
Definition try_encoding (file : option (list byte))
    (lines : option (list str)) (encoding : Codec.encoding)
    : result (option (list str)) :=
  match file with
  | None => Raise FileNotFoundError
  | Some bytes =>
      match Codec.decode encoding bytes with
      | Some text => Ok (Some (readlines text))
      | None => Ok lines
      end
  end.

Fixpoint for_encodings (file : option (list byte))
    (lines : option (list str)) (encs : list Codec.encoding)
    : result (option (list str)) :=
  match encs with
  | [] => Ok lines
  | encoding :: encs' =>
      lines' <- try_encoding file lines encoding ;;
      for_encodings file lines' encs'
  end.

(** The value of [lines] when the first loop of [parse] is left. *)
Definition read_lines (file : option (list byte)) : result (list str) :=
  lines <- for_encodings file None encodings ;;
  match lines with
  | Some l => Ok l
  | None => Raise UnboundLocalError
  end.

Section Parse.

(** The builtin [float(s)] on a [str]: the number read, or nothing when
    it raises [ValueError].  (The texts that it reads as nan or as an
    infinity have no rational value and are outside the embedding.) *)
Variable float : str -> option Q.

Definition to_float (s : str) : result Q :=
  match float s with
  | Some q => Ok q
  | None => Raise ValueError
  end.

(** [not line or line.startswith(';')] *)
Definition skipped (line : str) : bool :=
  match line with
  | [] => true
  | _ :: _ => startswith_semicolon line
  end.

(** The body of [if len(parts) >= 6]. *)
Definition read_spec (self : t) (parts : list str) : result t :=
  d <- to_float (nth 1 parts []) ;;
  l <- to_float (nth 2 parts []) ;;
  p <- to_float (nth 4 parts []) ;;
  m <- to_float (nth 5 parts []) ;;
  Ok (mk (nth 0 parts []) d l p m (time self) (thrust self)).

(** [for i, line in enumerate(lines)]: returns [self] and [data_start]
    (which stays [0] when the loop ends without [break]). *)
Fixpoint find_spec (self : t) (i : nat) (lines : list str)
    : result (t * nat) :=
  match lines with
  | [] => Ok (self, 0%nat)
  | line :: lines' =>
      let line := strip line in
      if skipped line then find_spec self (S i) lines'
      else
        let parts := split line in
        if (6 <=? List.length parts)%nat then
          self' <- read_spec self parts ;;
          Ok (self', S i)
        else find_spec self (S i) lines'
  end.

(** One turn of [for line in lines[data_start:]]. *)
Definition read_sample (self : t) (line : str) : t :=
  let line := strip line in
  if skipped line then self
  else
    let parts := split line in
    if (2 <=? List.length parts)%nat then
      match float (nth 0 parts []), float (nth 1 parts []) with
      | Some time', Some thrust' =>
          mk (name self) (diameter self) (length self)
             (propellant_mass self) (total_mass self)
             (time self ++ [time']) (thrust self ++ [thrust'])
      | _, _ => self
      end
    else self.

Definition parse_lines (lines : list str) : result t :=
  found <- find_spec init 0 lines ;;
  let (self, data_start) := found in
  Ok (fold_left read_sample (skipn data_start lines) self).

Definition parse (file : option (list byte)) : result t :=
  lines <- read_lines file ;;
  parse_lines lines.

End Parse.

(** The two sample lists go in pairs. *)
Definition paired (self : t) : Prop :=
  List.length (time self) = List.length (thrust self).

(** A line the search for the specification line passes over: blank, a
    comment, or of fewer than six fields. *)
Definition passed_over (line : str) : bool :=
  skipped (strip line) || (List.length (split (strip line)) <? 6)%nat.

Definition get_burn_time (self : t) : Q := last (time self) 0.

Definition get_average_thrust (self : t) : result Q :=
  if (List.length (time self) <? 2)%nat then Ok 0
  else
    let total_impulse := Np.trapezoid (thrust self) (time self) in
    Np.true_divide total_impulse (get_burn_time self).

Definition get_thrust_interpolator (self : t) : Q -> Q :=
  if (List.length (time self) <? 2)%nat then fun _ => 0
  else Np.interp1d (time self) (thrust self).

End EngineParser.

(** ** class RocketSimulator *)

Module RocketSimulator.

Inductive engine_mode : Type :=
| curve (thrust_func : Q -> Q)
| constant (thrust_value : Q).

(** The attributes the flight model reads ([engine_name] and
    [avg_thrust] are read by [print_results] only).  Every number is a
    Python scalar but [burn_time], which for a motor with samples is the
    numpy scalar [time[-1]]: [burn_time_float64] tells. *)
Record t : Type := mk
  { diameter : Q
  ; cd : Q
  ; area : Q
  ; g : Q
  ; rho : Q
  ; mode : engine_mode
  ; burn_time : Q
  ; burn_time_float64 : bool
  ; mp : Q
  ; m0 : Q
  ; mf : Q }.

Section Numpy.

Variable np_pi : Q.
Variable np_exp : Q -> Q.

(** [RocketSimulator(total_mass, diameter, cd, engine=engine)] *)
Definition of_engine (total_mass diameter cd : Q) (engine : EngineParser.t)
    : t :=
  mk diameter cd (np_pi * (diameter / 2) ^ 2) 9.81 1.225
     (curve (EngineParser.get_thrust_interpolator engine))
     (EngineParser.get_burn_time engine)
     (0 <? List.length (EngineParser.time engine))%nat
     (EngineParser.propellant_mass engine)
     total_mass
     (total_mass - EngineParser.propellant_mass engine).

(** [RocketSimulator(total_mass, diameter, cd, thrust=..., burn_time=...,
    propellant_mass=...)] *)
Definition of_manual (total_mass diameter cd thrust burn_time
    propellant_mass : Q) : t :=
  mk diameter cd (np_pi * (diameter / 2) ^ 2) 9.81 1.225
     (constant thrust) burn_time false propellant_mass
     total_mass (total_mass - propellant_mass).

Definition thrust (self : t) (t : Q) : Q :=
  if Py.lt (burn_time self) t then 0
  else
    match mode self with
    | curve thrust_func => thrust_func t
    | constant thrust_value => thrust_value
    end.

Definition drag_force (self : t) (velocity altitude : Q) : Q :=
  let rho_alt := rho self * np_exp (- altitude / 8500) in
  0.5 * rho_alt * velocity ^ 2 * cd self * area self.

(** [self.mp / self.burn_time] is numpy's division when [burn_time] is a
    numpy scalar. *)
Definition mass (self : t) (t : Q) : result Q :=
  if Py.le t (burn_time self) then
    rate <- Np.divide (burn_time_float64 self) (mp self) (burn_time self) ;;
    Ok (m0 self - rate * t)
  else Ok (mf self).

End Numpy.

End RocketSimulator.

(** ** RocketSimulator.simulate *)

Module Simulate.

Import RocketSimulator.

(** The dictionary [simulate] returns. *)
Module Results.
Record dict : Type := mk
  { apogeo : Q
  ; tempo_apogeo : Q
  ; velocita_2m : Q
  ; tempo_2m : Q
  ; times : list Q
  ; heights : list Q
  ; velocities : list Q
  ; thrusts : list Q }.
End Results.

(** The local variables of [simulate].  [apogee] and [time_to_apogee]
    are unbound ([None]) until the apogee branch assigns them;
    [v_at_2m] and [t_at_2m] start as Python's [None]. *)
Record locals : Type := mk
  { t : Q
  ; h : Q
  ; v : Q
  ; times : list Q
  ; heights : list Q
  ; velocities : list Q
  ; thrusts : list Q
  ; v_at_2m : option Q
  ; t_at_2m : option Q
  ; apogee : option Q
  ; time_to_apogee : option Q }.

(** How a turn of [while True] ends: at the end of the body, at the
    [break] of the apogee test (the specification's APOGEE_REACHED), or
    at the [break] of the safety bounds (its ABORTED). *)
Inductive flow : Set :=
| next_turn
| break_apogee
| break_bound.

Definition default_dt : Q := 0.001.

Section Run.

Variable np_exp : Q -> Q.
Variable self : RocketSimulator.t.
Variable dt : Q.

Definition start : locals :=
  mk 0 0 0 [0] [0] [0] [thrust self 0] None None None None.

Definition is_None (x : option Q) : bool :=
  match x with
  | None => true
  | Some _ => false
  end.

(** One turn of the loop.  The division that gives [a] is numpy's when
    one of its operands is: [m] (and, with two samples or more, the
    thrust) up to the burn time of a motor with samples, the drag of a
    rising vehicle, which [np.exp] has made a numpy scalar. *)
Definition body (s : locals) : result (flow * locals) :=
  m <- mass self (t s) ;;
  let thrust_force := thrust self (t s) in
  let weight := m * g self in
  let drag :=
    if Py.lt 0 (v s) then drag_force np_exp self (v s) (h s) else 0 in
  let numpy :=
    (burn_time_float64 self && Py.le (t s) (burn_time self))
    || Py.lt 0 (v s) in
  a <- Np.divide numpy (thrust_force - weight - drag) m ;;
  let v' := v s + a * dt in
  let h' := h s + v' * dt in
  let t' := t s + dt in
  let times' := times s ++ [t'] in
  let heights' := heights s ++ [h'] in
  let velocities' := velocities s ++ [v'] in
  let thrusts' := thrusts s ++ [thrust_force] in
  let at_2m := is_None (v_at_2m s) && Py.le 2.0 h' in
  let v_at_2m' := if at_2m then Some v' else v_at_2m s in
  let t_at_2m' := if at_2m then Some t' else t_at_2m s in
  if Py.le v' 0 && Py.lt 0 h' then
    Ok (break_apogee,
        mk t' h' v' times' heights' velocities' thrusts'
           v_at_2m' t_at_2m' (Some h') (Some t'))
  else if Py.lt 300 t' || Py.lt h' (-10) then
    Ok (break_bound,
        mk t' h' v' times' heights' velocities' thrusts'
           v_at_2m' t_at_2m' (apogee s) (time_to_apogee s))
  else
    Ok (next_turn,
        mk t' h' v' times' heights' velocities' thrusts'
           v_at_2m' t_at_2m' (apogee s) (time_to_apogee s)).

(** [while True]: [fuel] bounds the number of turns; [None] means the
    loop is still running when the fuel is spent, [Some NonFinite] that a
    turn has made the velocity nan or an infinity. *)
Fixpoint while_true (fuel : nat) (s : locals)
    : option (result (flow * locals)) :=
  match fuel with
  | O => None
  | S fuel' =>
      match body s with
      | Raise e => Some (Raise e)
      | NonFinite => Some NonFinite
      | Ok (next_turn, s') => while_true fuel' s'
      | Ok (exit, s') => Some (Ok (exit, s'))
      end
  end.

(** The [return] statement: reading an unbound local raises
    [UnboundLocalError]. *)
Definition return_dict (s : locals) : result Results.dict :=
  match apogee s, time_to_apogee s with
  | Some apogee, Some time_to_apogee =>
      Ok (Results.mk apogee time_to_apogee
            (or_zero (v_at_2m s)) (or_zero (t_at_2m s))
            (times s) (heights s) (velocities s) (thrusts s))
  | _, _ => Raise UnboundLocalError
  end.

(** What the recorded series satisfy at every turn. *)
Record series_ok (s : locals) : Prop := mk_series_ok
  { len_heights : List.length (heights s) = List.length (times s)
  ; len_velocities : List.length (velocities s) = List.length (times s)
  ; len_thrusts : List.length (thrusts s) = List.length (times s)
  ; first_time : hd_error (times s) = Some 0
  ; first_height : hd_error (heights s) = Some 0
  ; first_velocity : hd_error (velocities s) = Some 0
  ; first_thrust : hd_error (thrusts s) = Some (thrust self 0)
  ; last_time : last (times s) 0 = t s
  ; time_steps :
      forall i a b,
        nth_error (times s) i = Some a ->
        nth_error (times s) (S i) = Some b -> b = a + dt }.

Definition simulate (fuel : nat) : option (result Results.dict) :=
  match while_true fuel start with
  | None => None
  | Some (Raise e) => Some (Raise e)
  | Some NonFinite => Some NonFinite
  | Some (Ok (_, s)) => Some (return_dict s)
  end.

End Run.

End Simulate.

(** ** The decimal literals of [float] *)

Module Float.

Import Text.

Definition digit (c : N) : option Z :=
  if in_range 0x30 0x39 c then Some (Z.of_N (c - 0x30)) else None.

(** Reads a run of digits: its value, its length and what follows. *)
Fixpoint digits (acc : Z) (n : nat) (s : str) : Z * nat * str :=
  match s with
  | [] => (acc, n, [])
  | c :: s' =>
      match digit c with
      | Some d => digits (10 * acc + d) (S n) s'
      | None => (acc, n, s)
      end
  end.

Definition sign (s : str) : Z * str :=
  match s with
  | [] => (1%Z, s)
  | c :: s' =>
      if (c =? 0x2D)%N then ((-1)%Z, s')
      else if (c =? 0x2B)%N then (1%Z, s')
      else (1%Z, s)
  end.

Definition exponent (s : str) : option Z :=
  match s with
  | [] => Some 0%Z
  | c :: s' =>
      if (c =? 0x65)%N || (c =? 0x45)%N then
        let (sg, s1) := sign s' in
        match digits 0 0 s1 with
        | (e, S _, []) => Some (sg * e)%Z
        | _ => None
        end
      else None
  end.

Definition fraction (s : str) : Z * nat * str :=
  match s with
  | [] => (0%Z, 0%nat, s)
  | c :: s' => if (c =? 0x2E)%N then digits 0 0 s' else (0%Z, 0%nat, s)
  end.

(** [float(s)] for [s] a decimal literal
    [[+-] digits [. digits] [e [+-] digits]] between optional spaces;
    nothing for any other text.  (The builtin also reads [inf], [nan] and
    digit groups joined by underscores, which have no place here.) *)
Definition decimal (s : str) : option Q :=
  let (sg, s0) := sign (strip s) in
  match digits 0 0 s0 with
  | (i, ni, s1) =>
      match fraction s1 with
      | (f, nf, s2) =>
          if (ni + nf =? 0)%nat then None
          else
            match exponent s2 with
            | Some e =>
                Some (inject_Z sg
                      * (inject_Z i + inject_Z f / inject_Z (10 ^ Z.of_nat nf))
                      * 10 ^ e)
            | None => None
            end
      end
  end.

End Float.

(** ** The entry point: loading the motor *)

Module Main.

Inductive diagnostic : Set :=
| file_not_found
| parsing_error (e : exn).

Inductive outcome : Type :=
| exit_1 (d : diagnostic)
| loaded (sim : RocketSimulator.t).

(** The [try] block of the [engine_file is not None] branch with its two
    handlers.  ([parse] divides nothing: its outcome is never
    [NonFinite], and the last case is there for the type only.) *)
Definition load_engine (float : Text.str -> option Q) (np_pi : Q)
    (file : option (list byte)) (rocket_mass_empty diameter cd : Q)
    : outcome :=
  match EngineParser.parse float file with
  | Ok engine =>
      let total_mass :=
        rocket_mass_empty + EngineParser.propellant_mass engine in
      loaded (RocketSimulator.of_engine np_pi total_mass diameter cd engine)
  | Raise FileNotFoundError => exit_1 file_not_found
  | Raise e => exit_1 (parsing_error e)
  | NonFinite => exit_1 (parsing_error ValueError)
  end.

End Main.

(** ** The vocabulary of the specification *)

Module Spec.

(** A sample sequence has strictly increasing times. *)
Fixpoint strictly_increasing (x : list Q) : bool :=
  match x with
  | [] => true
  | x0 :: x' =>
      match x' with
      | [] => true
      | x1 :: _ => Py.lt x0 x1 && strictly_increasing x'
      end
  end.

(** A sample has a time that is not negative. *)
Definition nonnegative (x : list Q) : bool := forallb (Py.le 0) x.

(** The trapezoidal integral of the samples, by the index of the
    trapezoid: between samples [i] and [i+1] its area is the mean of the
    two thrusts times the width. *)
Definition trapezoid_area (x y : list Q) (i : nat) : Q :=
  (nth i y 0 + nth (S i) y 0) / 2 * (nth (S i) x 0 - nth i x 0).

Definition trapezoidal_integral (x y : list Q) : Q :=
  fold_right (fun i acc => trapezoid_area x y i + acc) 0
    (seq 0 (List.length x - 1)).

(** The first line that is neither blank nor a comment, stripped. *)
Fixpoint first_content_line (lines : list Text.str) : option Text.str :=
  match lines with
  | [] => None
  | line :: lines' =>
      if EngineParser.skipped (Text.strip line) then first_content_line lines'
      else Some (Text.strip line)
  end.

Definition is_float (float : Text.str -> option Q) (s : Text.str) : bool :=
  match float s with
  | Some _ => true
  | None => false
  end.

(** A specification line: six fields or more, the second, third, fifth
    and sixth of them numbers. *)
Definition specification_line (float : Text.str -> option Q)
    (line : Text.str) : bool :=
  let parts := Text.split line in
  (6 <=? List.length parts)%nat
  && is_float float (nth 1 parts []) && is_float float (nth 2 parts [])
  && is_float float (nth 4 parts []) && is_float float (nth 5 parts []).

(** The file has its specification line where the format puts it. *)
Definition has_specification_line (float : Text.str -> option Q)
    (lines : list Text.str) : bool :=
  match first_content_line lines with
  | Some line => specification_line float line
  | None => false
  end.

End Spec.

(** ** The numeric methods in binary64 *)

Module Binary64.

(** [np.trapezoid(y, x)]: the terms [d * (y[1:] + y[:-1]) / 2.0], then
    their sum, the terms added one after the other (as numpy adds fewer
    than eight terms). *)
Fixpoint trapezoid_terms (y x : list float) : list float :=
  match y, x with
  | y0 :: y', x0 :: x' =>
      match y', x' with
      | y1 :: _, x1 :: _ =>
          ((x1 - x0) * (y1 + y0) / 2)%float :: trapezoid_terms y' x'
      | _, _ => []
      end
  | _, _ => []
  end.

Definition sum (terms : list float) : float :=
  match terms with
  | [] => 0%float
  | term :: terms' => fold_left PrimFloat.add terms' term
  end.

Definition trapezoid (y x : list float) : float :=
  sum (trapezoid_terms y x).

(** [EngineParser.get_burn_time] *)
Definition get_burn_time (time : list float) : float := last time 0%float.

(** [EngineParser.get_average_thrust]: a numpy division, which yields nan
    or an infinity for a zero divisor. *)
Definition get_average_thrust (time thrust : list float) : float :=
  if (List.length time <? 2)%nat then 0%float
  else (trapezoid thrust time / get_burn_time time)%float.

Fixpoint insert (p : float * float) (l : list (float * float))
    : list (float * float) :=
  match l with
  | [] => [p]
  | q :: l' => if (fst p <=? fst q)%float then p :: l else q :: insert p l'
  end.

Definition sort_points (l : list (float * float)) : list (float * float) :=
  fold_right insert [] l.

(** [np.interp] on the sorted points, with its second try when the linear
    piece is not-a-number. *)
Fixpoint call_linear (lo : float * float) (rest : list (float * float))
    (x_new : float) : float :=
  match rest with
  | [] => snd lo
  | hi :: rest' =>
      if (x_new <? fst hi)%float then
        if (fst lo =? x_new)%float then snd lo
        else
          let slope := ((snd hi - snd lo) / (fst hi - fst lo))%float in
          let res := (slope * (x_new - fst lo) + snd lo)%float in
          if is_nan res then
            let res' := (slope * (x_new - fst hi) + snd hi)%float in
            if is_nan res' && (snd lo =? snd hi)%float then snd lo else res'
          else res
      else call_linear hi rest' x_new
  end.

(** [interp1d(x, y, kind='linear', bounds_error=False, fill_value=0)] *)
Definition interp1d (x y : list float) (x_new : float) : float :=
  match sort_points (combine x y) with
  | [] => 0%float
  | p0 :: rest =>
      if (x_new <? fst p0)%float || (fst (last rest p0) <? x_new)%float
      then 0%float
      else if is_nan x_new then x_new
      else call_linear p0 rest x_new
  end.

(** [RocketSimulator.thrust] of a simulator built from a motor with the
    samples [time], [thrust]. *)
Definition thrust (time thrust : list float) (t : float) : float :=
  if (get_burn_time time <? t)%float then 0%float
  else if (List.length time <? 2)%nat then 0%float
  else interp1d time thrust t.

(** [mf], as [__init__] computes it. *)
Definition final_mass (total_mass propellant_mass : float) : float :=
  (total_mass - propellant_mass)%float.

(** [RocketSimulator.mass].  A zero [burn_time] raises when it is a
    Python scalar; numpy's divides to nan or an infinity. *)
Definition mass (burn_time_float64 : bool)
    (total_mass propellant_mass burn_time t : float) : result float :=
  if (t <=? burn_time)%float then
    if negb burn_time_float64 && (burn_time =? 0)%float
    then Raise ZeroDivisionError
    else Ok (total_mass - (propellant_mass / burn_time) * t)%float
  else Ok (final_mass total_mass propellant_mass).

End Binary64.

(** ** Sample data *)

Module Examples.

(** The manual configuration of the entry point, with [np.pi] cut to
    five places and a flat atmosphere for [np.exp]. *)
Definition pi5 : Q := 3.14159.
Definition flat (_ : Q) : Q := 1.

Definition manual : RocketSimulator.t :=
  RocketSimulator.of_manual pi5 1.04 0.060 0.9 105.0 (115 / 105) 0.130.

(** The same vehicle with a motor of zero burn time. *)
Definition no_burn : RocketSimulator.t :=
  RocketSimulator.of_manual pi5 1.04 0.060 0.9 105.0 0 0.130.

(** The same vehicle with a motor that gives no thrust. *)
Definition no_thrust : RocketSimulator.t :=
  RocketSimulator.of_manual pi5 1.04 0.060 0.9 0 (115 / 105) 0.130.

(** A weak motor: the vehicle hops about two metres. *)
Definition hop : RocketSimulator.t :=
  RocketSimulator.of_manual pi5 1.04 0.060 0.9 15 0.5 0.130.

(** The round-trip motor of the specification: a ramp from 0 N to 50 N
    over one second. *)
Definition ramp : EngineParser.t :=
  EngineParser.mk (Text.of_string "F35") 29 95 0.090 0.118
    [0.0; 1.0] [0.0; 50.0].

Definition ramp_sim : RocketSimulator.t :=
  RocketSimulator.of_engine pi5 1.0 0.060 0.9 ramp.

(** A motor file without data lines: no samples, burn time 0. *)
Definition no_samples : EngineParser.t :=
  EngineParser.mk (Text.of_string "F35") 29 95 0.090 0.118 [] [].

Definition no_samples_sim : RocketSimulator.t :=
  RocketSimulator.of_engine pi5 1.0 0.060 0.9 no_samples.

(** A motor file with one data line, at time 0: burn time 0. *)
Definition one_sample : EngineParser.t :=
  EngineParser.mk (Text.of_string "F35") 29 95 0.090 0.118 [0.0] [12.5].

(** A motor file with two data lines at the same time 0, and what [parse]
    with the decimal [float] makes of it. *)
Definition repeated_time_file : list byte :=
  list_byte_of_string "F35 29 95 0-4-6-8 0.090 0.118 TSP" ++ [x0a]
  ++ list_byte_of_string "0 0" ++ [x0a]
  ++ list_byte_of_string "0 5" ++ [x0a].

Definition repeated_time : EngineParser.t :=
  EngineParser.mk (Text.of_string "F35") 29 95 0.090 0.118 [0; 0] [0; 5].

(** Motor files, as bytes. *)
Definition line (s : string) : list byte := list_byte_of_string s ++ [x0a].

Definition headerless : list byte := line "0 0" ++ line "1 50".

Definition preamble : list byte :=
  line "hello" ++ line "F35 29 95 0-4-6-8 0.090 0.118 TSP"
  ++ line "0.0 0.0" ++ line "1.0 50.0".

Definition bad_number : list byte :=
  line "; a motor" ++ line "F35 29mm 95 0-4-6-8 0.090 0.118 TSP"
  ++ line "0.0 0.0" ++ line "1.0 50.0".

(** The name is F, e with an acute accent (two bytes in UTF-8), 35. *)
Definition accented : list byte :=
  list_byte_of_string "F" ++ [xc3; xa9]
  ++ line "35 29 95 0-4-6-8 0.090 0.118 TSP"
  ++ line "0.0 0.0" ++ line "1.0 50.0".


(** A motor file with lines that hold no sample among its data lines. *)
Definition noisy : list byte :=
  line "; TSP F35" ++ line "F35 29 95 0-4-6-8 0.090 0.118 TSP"
  ++ line "0.0 0.0" ++ line "" ++ line "; peak" ++ line "1.0 50.0 ; top"
  ++ line "1.5" ++ line "x 3.0" ++ line "2 0".

End Examples.

(** ** The data lines of a motor file *)

Module DataLine.

Import Text.

(** The sample a data line holds: the numbers of its first two fields,
    when the line is neither blank nor a comment, has two fields or more
    and [float] reads both. *)
Definition sample (float : str -> option Q) (line : str) : option (Q * Q) :=
  let line := strip line in
  if EngineParser.skipped line then None
  else
    match split line with
    | time :: thrust :: _ =>
        match float time, float thrust with
        | Some a, Some b => Some (a, b)
        | _, _ => None
        end
    | _ => None
    end.

(** The samples of a sequence of lines, in the order of the lines. *)
Fixpoint samples (float : str -> option Q) (lines : list str)
    : list (Q * Q) :=
  match lines with
  | [] => []
  | line :: lines' =>
      match sample float line with
      | Some p => p :: samples float lines'
      | None => samples float lines'
      end
  end.

(** The file is plain ASCII. *)
Definition ascii (bytes : list byte) : bool :=
  forallb (fun b => (Byte.to_N b <? 0x80)%N) bytes.

End DataLine.

(** ** The entry point: the two ways to configure the motor *)

Module Entry.

(** The module-level variables of the script.  [engine_file] is [None] for
    the manual parameters, else what the path leads to. *)
Record config : Type := mk
  { engine_file : option (option (list byte))
  ; manual_thrust : Q
  ; manual_burn_time : Q
  ; manual_propellant_mass : Q
  ; rocket_mass_empty : Q
  ; diameter : Q
  ; cd : Q }.

(** [if engine_file is not None: ... else: ...], up to the simulator. *)
Definition setup (float : Text.str -> option Q) (np_pi : Q) (c : config)
    : Main.outcome :=
  match engine_file c with
  | Some file =>
      Main.load_engine float np_pi file (rocket_mass_empty c) (diameter c)
        (cd c)
  | None =>
      let total_mass := rocket_mass_empty c + manual_propellant_mass c in
      Main.loaded
        (RocketSimulator.of_manual np_pi total_mass (diameter c) (cd c)
           (manual_thrust c) (manual_burn_time c) (manual_propellant_mass c))
  end.

End Entry.

(** * Properties *)

(** ** Conditions and division *)

Lemma le_true (a b : Q) : Py.le a b = true <-> a <= b.
Proof. apply Qle_bool_iff. Qed.

Lemma le_false (a b : Q) : Py.le a b = false <-> b < a.
Proof.
  unfold Py.le. split; intro H.
  - apply Qnot_le_lt. intro Hle. apply Qle_bool_iff in Hle. congruence.
  - destruct (Qle_bool a b) eqn:E; [|reflexivity].
    apply Qle_bool_iff in E. lra.
Qed.

Lemma lt_true (a b : Q) : Py.lt a b = true <-> a < b.
Proof.
  unfold Py.lt. rewrite negb_true_iff. apply (le_false b a).
Qed.

Lemma lt_false (a b : Q) : Py.lt a b = false <-> b <= a.
Proof.
  unfold Py.lt. rewrite negb_false_iff. apply (le_true b a).
Qed.

Lemma truediv_nonzero (a b : Q) : ~ b == 0 -> truediv a b = Ok (a / b).
Proof.
  intro H. unfold truediv.
  destruct (Qeq_bool b 0) eqn:E; [|reflexivity].
  apply Qeq_bool_iff in E. contradiction.
Qed.

Lemma truediv_zero (a b : Q) : b == 0 -> truediv a b = Raise ZeroDivisionError.
Proof.
  intro H. unfold truediv. apply Qeq_bool_iff in H. now rewrite H.
Qed.

Lemma divide_nonzero (numpy : bool) (a b : Q) :
  ~ b == 0 -> Np.divide numpy a b = Ok (a / b).
Proof.
  intro H. unfold Np.divide, Np.true_divide.
  destruct numpy; [|exact (truediv_nonzero a b H)].
  destruct (Qeq_bool b 0) eqn:E; [|reflexivity].
  apply Qeq_bool_iff in E. contradiction.
Qed.

Lemma true_divide_zero (a b : Q) : b == 0 -> Np.true_divide a b = NonFinite.
Proof.
  intro H. unfold Np.true_divide. apply Qeq_bool_iff in H. now rewrite H.
Qed.

(** A quotient that has a value is the quotient of Python scalars too. *)
Lemma divide_Ok (numpy : bool) (a b q : Q) :
  Np.divide numpy a b = Ok q -> truediv a b = Ok q.
Proof.
  unfold Np.divide, Np.true_divide, truediv.
  destruct numpy; [|exact (fun H => H)].
  destruct (Qeq_bool b 0); [discriminate | exact (fun H => H)].
Qed.

(** ** The thrust and the mass of the vehicle *)

Section ThrustAndMass.

Import RocketSimulator.

Variable self : RocketSimulator.t.

Lemma thrust_after_burn (t : Q) : burn_time self < t -> thrust self t = 0.
Proof.
  intro H. unfold thrust. apply lt_true in H. now rewrite H.
Qed.

Lemma thrust_during_burn (t : Q) :
  t <= burn_time self ->
  thrust self t =
    match mode self with
    | curve thrust_func => thrust_func t
    | constant thrust_value => thrust_value
    end.
Proof.
  intro H. unfold thrust. apply lt_false in H. now rewrite H.
Qed.

(** C7. Whatever the motor variant, the thrust is 0 at every time after
    the burn time; with the constant variant it is the supplied thrust
    at every time up to the burn time. *)
Theorem thrust_zero_after_burn_time :
  (forall t, burn_time self < t -> thrust self t = 0)
  /\ (forall thrust_value t,
        mode self = constant thrust_value ->
        t <= burn_time self -> thrust self t = thrust_value).
Proof.
  split.
  - exact thrust_after_burn.
  - intros thrust_value t Hmode Ht.
    rewrite (thrust_during_burn t Ht), Hmode. reflexivity.
Qed.

Lemma mass_during_burn (t : Q) :
  t <= burn_time self -> ~ burn_time self == 0 ->
  mass self t = Ok (m0 self - mp self / burn_time self * t).
Proof.
  intros Ht Hb. unfold mass. apply le_true in Ht. rewrite Ht.
  rewrite (divide_nonzero _ _ _ Hb). reflexivity.
Qed.

Lemma mass_after_burn (t : Q) :
  burn_time self < t -> mass self t = Ok (mf self).
Proof.
  intro Ht. unfold mass. apply le_false in Ht. now rewrite Ht.
Qed.

(** With a burn time of zero the division is reached at every [t <= 0]:
    it raises for a Python zero and gives nan or an infinity for numpy's
    zero. *)
Lemma mass_zero_burn_time (t : Q) :
  burn_time self == 0 -> t <= 0 ->
  mass self t
  = if burn_time_float64 self then NonFinite else Raise ZeroDivisionError.
Proof.
  intros Hb Ht. unfold mass, Np.divide.
  assert (Hle : Py.le t (burn_time self) = true) by (apply le_true; lra).
  rewrite Hle. destruct (burn_time_float64 self).
  - now rewrite (true_divide_zero _ _ Hb).
  - now rewrite (truediv_zero _ _ Hb).
Qed.


End ThrustAndMass.

Lemma thrust_zero_after_burn_time_witness :
  RocketSimulator.thrust Examples.manual 2 = 0
  /\ RocketSimulator.thrust Examples.ramp_sim 2 = 0
  /\ RocketSimulator.thrust Examples.manual 1 = 105.0.
Proof.
  assert (Hafter : RocketSimulator.burn_time Examples.manual < 2)
    by (vm_compute; reflexivity).
  assert (Hafter' : RocketSimulator.burn_time Examples.ramp_sim < 2)
    by (vm_compute; reflexivity).
  assert (Hduring : 1 <= RocketSimulator.burn_time Examples.manual)
    by (vm_compute; discriminate).
  split; [|split].
  - exact (proj1 (thrust_zero_after_burn_time Examples.manual) 2 Hafter).
  - exact (proj1 (thrust_zero_after_burn_time Examples.ramp_sim) 2 Hafter').
  - exact (proj2 (thrust_zero_after_burn_time Examples.manual)
             105.0 1 eq_refl Hduring).
Defined.



(** C5. The mass of a motor with zero burn time, asked at lift-off, is a
    division by zero: [mass] has no guard for [burn_time = 0]. *)
Theorem mass_unguarded_at_zero_burn_time :
  RocketSimulator.mass Examples.no_burn 0 = Raise ZeroDivisionError
  /\ RocketSimulator.mass Examples.no_samples_sim 0 = Raise ZeroDivisionError
  /\ (forall np_exp dt fuel,
        Simulate.simulate np_exp Examples.no_burn dt (S fuel)
        = Some (Raise ZeroDivisionError)).
Proof.
  split; [reflexivity|]. split; [reflexivity|].
  intros np_exp dt fuel. reflexivity.
Qed.

(** A motor with samples has numpy's scalar for its burn time.  With one
    sample, at the time 0, the mass at lift-off is then no exception but
    the quotient by numpy's zero (nan in binary64), and so is the state
    of [simulate] after its first turn. *)
Lemma mass_of_one_sample_motor :
  let sim :=
    RocketSimulator.of_engine Examples.pi5 1.0 0.060 0.9 Examples.one_sample
  in
  RocketSimulator.burn_time_float64 sim = true
  /\ RocketSimulator.mass sim 0 = NonFinite
  /\ (forall np_exp dt fuel,
        Simulate.simulate np_exp sim dt (S fuel) = Some NonFinite)
  /\ match Binary64.mass true 1.0 0.090 0 0 with
     | Ok m => PrimFloat.is_nan m
     | _ => false
     end = true.
Proof.
  split; [reflexivity|]. split; [reflexivity|].
  split; [|reflexivity]. intros np_exp dt fuel. reflexivity.
Qed.

(** ** The average thrust of a sampled motor *)

Lemma trapezoid_area_shift (x0 y0 : Q) (x y : list Q) (i : nat) :
  Spec.trapezoid_area (x0 :: x) (y0 :: y) (S i) = Spec.trapezoid_area x y i.
Proof. reflexivity. Qed.

Lemma sum_areas_shift (x0 y0 : Q) (x y : list Q) (n : nat) :
  fold_right (fun i acc => Spec.trapezoid_area (x0 :: x) (y0 :: y) i + acc) 0
    (seq 1 n)
  = fold_right (fun i acc => Spec.trapezoid_area x y i + acc) 0 (seq 0 n).
Proof.
  rewrite <- seq_shift. induction (seq 0 n) as [|i l IH]; simpl.
  - reflexivity.
  - rewrite IH. reflexivity.
Qed.

(** [np.trapezoid] computes the trapezoidal integral of the samples. *)
Lemma trapezoid_is_integral (x y : list Q) :
  List.length x = List.length y ->
  Np.trapezoid y x == Spec.trapezoidal_integral x y.
Proof.
  revert y. induction x as [|x0 x IH]; intros [|y0 y] Hlen;
    try discriminate; try reflexivity.
  destruct x as [|x1 x], y as [|y1 y]; try discriminate; try reflexivity.
  assert (Hlen' : List.length (x1 :: x) = List.length (y1 :: y))
    by (simpl in *; lia).
  specialize (IH (y1 :: y) Hlen').
  change (Np.trapezoid (y0 :: y1 :: y) (x0 :: x1 :: x))
    with ((x1 - x0) * (y1 + y0) / 2 + Np.trapezoid (y1 :: y) (x1 :: x)).
  rewrite IH. unfold Spec.trapezoidal_integral.
  replace (List.length (x0 :: x1 :: x) - 1)%nat
    with (S (List.length (x1 :: x) - 1)) by (simpl; lia).
  rewrite <- cons_seq. cbn [fold_right].
  rewrite sum_areas_shift.
  generalize (fold_right
                (fun i acc => Spec.trapezoid_area (x1 :: x) (y1 :: y) i + acc)
                0 (seq 0 (List.length (x1 :: x) - 1))).
  intro tail_sum.
  change (Spec.trapezoid_area (x0 :: x1 :: x) (y0 :: y1 :: y) 0)
    with ((y0 + y1) / 2 * (x1 - x0)).
  field.
Qed.

Lemma increasing_tail (a : Q) (x : list Q) :
  Spec.strictly_increasing (a :: x) = true -> Spec.strictly_increasing x = true.
Proof.
  destruct x as [|b x]; [reflexivity|].
  cbn [Spec.strictly_increasing]. intro H.
  apply andb_true_iff in H. apply H.
Qed.

Lemma increasing_head (a b : Q) (x : list Q) :
  Spec.strictly_increasing (a :: b :: x) = true -> a < b.
Proof.
  cbn [Spec.strictly_increasing]. intro H.
  apply andb_true_iff in H. apply lt_true, H.
Qed.

(** In an increasing sequence the first time is below the last. *)
Lemma increasing_first_last (a b d : Q) (x : list Q) :
  Spec.strictly_increasing (a :: b :: x) = true -> a < last (b :: x) d.
Proof.
  revert a b. induction x as [|c x IH]; intros a b H.
  - exact (increasing_head _ _ _ H).
  - pose proof (increasing_head _ _ _ H) as Hab.
    apply increasing_tail in H. specialize (IH b c H).
    change (last (b :: c :: x) d) with (last (c :: x) d). lra.
Qed.

Section AverageThrust.

Import EngineParser.

Variable self : EngineParser.t.

(** C6, as the code has it.  With fewer than two samples the average
    thrust is 0.  With two samples or more it is the trapezoid sum divided
    by the burn time, a numpy division: for a burn time that is not zero
    the quotient, which times the burn time is the trapezoidal integral of
    the samples in exact arithmetic; for a burn time of zero nan or an
    infinity, not 0, and no exception. *)
Theorem average_thrust_is_impulse_over_burn_time :
  ((List.length (time self) < 2)%nat -> get_average_thrust self = Ok 0)
  /\ ((2 <= List.length (time self))%nat -> ~ get_burn_time self == 0 ->
      get_average_thrust self
      = Ok (Np.trapezoid (thrust self) (time self) / get_burn_time self)
      /\ (List.length (time self) = List.length (thrust self) ->
          Np.trapezoid (thrust self) (time self) / get_burn_time self
          * get_burn_time self
          == Spec.trapezoidal_integral (time self) (thrust self)))
  /\ ((2 <= List.length (time self))%nat -> get_burn_time self == 0 ->
      get_average_thrust self = NonFinite).
Proof.
  unfold get_average_thrust, Np.true_divide. split; [|split].
  - intro Hfew. apply Nat.ltb_lt in Hfew. now rewrite Hfew.
  - intros H2 Hnz. apply Nat.ltb_ge in H2. rewrite H2.
    destruct (Qeq_bool (get_burn_time self) 0) eqn:E.
    + apply Qeq_bool_iff in E. contradiction.
    + split; [reflexivity|]. intro Hlen.
      rewrite <- (trapezoid_is_integral _ _ Hlen). field. exact Hnz.
  - intros H2 Hzero. apply Nat.ltb_ge in H2. rewrite H2.
    apply Qeq_bool_iff in Hzero. now rewrite Hzero.
Qed.

End AverageThrust.

Lemma average_thrust_is_impulse_over_burn_time_witness :
  EngineParser.get_average_thrust Examples.no_samples = Ok 0
  /\ EngineParser.get_average_thrust Examples.one_sample = Ok 0
  /\ (exists average,
        EngineParser.get_average_thrust Examples.ramp = Ok average
        /\ average * 1.0 == 25)
  /\ EngineParser.get_average_thrust Examples.repeated_time = NonFinite.
Proof.
  split; [|split; [|split]].
  - apply (proj1 (average_thrust_is_impulse_over_burn_time
                    Examples.no_samples)).
    simpl. lia.
  - apply (proj1 (average_thrust_is_impulse_over_burn_time
                    Examples.one_sample)).
    simpl. lia.
  - assert (H2 : (2 <= List.length (EngineParser.time Examples.ramp))%nat)
      by (simpl; lia).
    assert (Hnz : ~ EngineParser.get_burn_time Examples.ramp == 0)
      by (vm_compute; discriminate).
    destruct (proj1 (proj2 (average_thrust_is_impulse_over_burn_time
                              Examples.ramp)) H2 Hnz) as [Havg Himp].
    eexists. split; [exact Havg|].
    etransitivity; [exact (Himp eq_refl)|]. reflexivity.
  - apply (proj2 (proj2 (average_thrust_is_impulse_over_burn_time
                           Examples.repeated_time))).
    + simpl. lia.
    + reflexivity.
Defined.

(** Against C6 as it is written: the motor file [repeated_time_file] has
    two data lines, both at the time 0.  Its burn time is 0, the length
    guard lets it pass, and the average thrust is the quotient 0/0: not 0
    (nan in binary64). *)
Lemma average_thrust_unguarded_at_zero_burn_time :
  EngineParser.parse Float.decimal (Some Examples.repeated_time_file)
  = Ok Examples.repeated_time
  /\ EngineParser.get_burn_time Examples.repeated_time == 0
  /\ EngineParser.get_average_thrust Examples.repeated_time = NonFinite
  /\ EngineParser.get_average_thrust Examples.repeated_time <> Ok 0
  /\ PrimFloat.is_nan
       (Binary64.get_average_thrust [0; 0]%float [0; 5]%float) = true.
Proof.
  split; [vm_compute; reflexivity|].
  split; [reflexivity|].
  split; [reflexivity|].
  split; [discriminate | reflexivity].
Qed.

(** ** The interpolated thrust of a sampled motor *)

Lemma increasing_nth_lt (a b : Q) (x : list Q) (i : nat) :
  Spec.strictly_increasing (a :: x) = true -> nth_error x i = Some b -> a < b.
Proof.
  revert a i. induction x as [|c x IH]; intros a i Hinc Hnth.
  - destruct i; discriminate.
  - pose proof (increasing_head _ _ _ Hinc) as Hac.
    destruct i as [|i]; simpl in Hnth.
    + injection Hnth as <-. exact Hac.
    + apply increasing_tail in Hinc. specialize (IH c i Hinc Hnth). lra.
Qed.

Lemma last_cons {A : Type} (a d : A) (l : list A) :
  last (a :: l) d = last l a.
Proof.
  revert a d. induction l as [|b l IH]; intros a d; [reflexivity|].
  change (last (a :: b :: l) d) with (last (b :: l) d).
  rewrite (IH b d). symmetry. apply IH.
Qed.

Lemma increasing_nth_le_last (b d : Q) (x : list Q) (i : nat) :
  Spec.strictly_increasing x = true -> nth_error x i = Some b ->
  b <= last x d.
Proof.
  revert i d. induction x as [|a x IH]; intros i d Hinc Hnth.
  - destruct i; discriminate.
  - rewrite last_cons. destruct i as [|i]; simpl in Hnth.
    + injection Hnth as <-. destruct x as [|c x]; [simpl; lra|].
      pose proof (increasing_first_last a c a x Hinc). lra.
    + apply increasing_tail in Hinc. exact (IH i a Hinc Hnth).
Qed.

Lemma last_map_fst (p0 : Q * Q) (l : list (Q * Q)) :
  fst (last l p0) = last (map fst l) (fst p0).
Proof.
  induction l as [|p l IH]; [reflexivity|].
  destruct l as [|q l]; [reflexivity|].
  change (last (p :: q :: l) p0) with (last (q :: l) p0).
  change (last (map fst (p :: q :: l)) (fst p0))
    with (last (map fst (q :: l)) (fst p0)).
  exact IH.
Qed.

Lemma map_fst_combine (x y : list Q) :
  List.length x = List.length y -> map fst (combine x y) = x.
Proof.
  revert y. induction x as [|a x IH]; intros [|b y] H;
    try discriminate; [reflexivity|].
  simpl. f_equal. apply IH. simpl in H. lia.
Qed.

Lemma nth_error_combine_Some (x y : list Q) (i : nat) (a b : Q) :
  nth_error x i = Some a -> nth_error y i = Some b ->
  nth_error (combine x y) i = Some (a, b).
Proof.
  revert y i. induction x as [|a' x IH]; intros [|b' y] [|i] Ha Hb;
    try discriminate.
  - simpl in *. congruence.
  - simpl in *. now apply IH.
Qed.

(** Sorting leaves increasing samples as they are. *)
Lemma insert_below (p : Q * Q) (l : list (Q * Q)) :
  Spec.strictly_increasing (map fst (p :: l)) = true -> Np.insert p l = p :: l.
Proof.
  destruct l as [|q l]; [reflexivity|].
  intro H. apply increasing_head in H. simpl.
  assert (Hle : Py.le (fst p) (fst q) = true) by (apply le_true; lra).
  now rewrite Hle.
Qed.

Lemma sort_points_increasing (l : list (Q * Q)) :
  Spec.strictly_increasing (map fst l) = true -> Np.sort_points l = l.
Proof.
  induction l as [|p l IH]; [reflexivity|].
  intro H. unfold Np.sort_points in *. cbn [fold_right].
  rewrite IH by exact (increasing_tail _ _ H).
  exact (insert_below p l H).
Qed.

Lemma increasing_consecutive (x : list Q) (i : nat) (a b : Q) :
  Spec.strictly_increasing x = true ->
  nth_error x i = Some a -> nth_error x (S i) = Some b -> a < b.
Proof.
  revert i. induction x as [|c x IH]; intros i Hinc Ha Hb.
  - destruct i; discriminate.
  - destruct i as [|i].
    + simpl in Ha. injection Ha as <-.
      exact (increasing_nth_lt _ _ x 0 Hinc Hb).
    + exact (IH i (increasing_tail _ _ Hinc) Ha Hb).
Qed.

Lemma nth_error_defined {A : Type} (l : list A) (i : nat) :
  (i < List.length l)%nat -> exists a, nth_error l i = Some a.
Proof.
  intro H. destruct (nth_error l i) as [a|] eqn:E; [now exists a|].
  apply nth_error_None in E. lia.
Qed.

Lemma nth_error_in_range {A : Type} (l : list A) (i : nat) (a : A) :
  nth_error l i = Some a -> (i < List.length l)%nat.
Proof. intro H. apply nth_error_Some. congruence. Qed.

(** On increasing points the search stops at the point whose abscissa is
    the query and returns its ordinate, untouched. *)
Lemma call_linear_at_point (rest : list (Q * Q)) :
  forall (p0 p : Q * Q) (i : nat) (t : Q),
    Spec.strictly_increasing (map fst (p0 :: rest)) = true ->
    nth_error (p0 :: rest) i = Some p -> t == fst p ->
    Np.call_linear p0 rest t = snd p.
Proof.
  induction rest as [|q rest IH]; intros p0 p i t Hinc Hp Ht.
  - destruct i as [|i]; [|destruct i; discriminate].
    injection Hp as <-. reflexivity.
  - pose proof (increasing_head _ _ _ Hinc) as Hpq.
    pose proof (increasing_tail _ _ Hinc) as Hinc'.
    cbn [Np.call_linear]. destruct i as [|i].
    + injection Hp as <-.
      assert (Hlt : Py.lt t (fst q) = true) by (apply lt_true; lra).
      assert (Heq : Qeq_bool (fst p0) t = true)
        by (apply Qeq_bool_iff; lra).
      now rewrite Hlt, Heq.
    + change (nth_error (p0 :: q :: rest) (S i))
        with (nth_error (q :: rest) i) in Hp.
      assert (Hge : fst q <= fst p).
      { destruct i as [|i].
        - injection Hp as <-. lra.
        - apply Qlt_le_weak.
          apply (increasing_nth_lt _ _ (map fst rest) i Hinc').
          simpl in Hp. rewrite nth_error_map, Hp. reflexivity. }
      assert (Hlt : Py.lt t (fst q) = false) by (apply lt_false; lra).
      rewrite Hlt. exact (IH q p i t Hinc' Hp Ht).
Qed.

(** Strictly between two consecutive points it returns their linear
    piece. *)
Lemma call_linear_between (rest : list (Q * Q)) :
  forall (p0 lo hi : Q * Q) (i : nat) (t : Q),
    Spec.strictly_increasing (map fst (p0 :: rest)) = true ->
    nth_error (p0 :: rest) i = Some lo ->
    nth_error (p0 :: rest) (S i) = Some hi ->
    fst lo < t -> t < fst hi ->
    Np.call_linear p0 rest t = Np.segment lo hi t.
Proof.
  induction rest as [|q rest IH]; intros p0 lo hi i t Hinc Hlo Hhi Hl Hh.
  - destruct i; discriminate.
  - pose proof (increasing_tail _ _ Hinc) as Hinc'.
    cbn [Np.call_linear]. destruct i as [|i].
    + simpl in Hlo, Hhi. injection Hlo as <-. injection Hhi as <-.
      assert (Hlt : Py.lt t (fst q) = true) by (apply lt_true; exact Hh).
      assert (Hne : Qeq_bool (fst p0) t = false).
      { destruct (Qeq_bool (fst p0) t) eqn:E; [|reflexivity].
        apply Qeq_bool_iff in E. lra. }
      now rewrite Hlt, Hne.
    + change (nth_error (p0 :: q :: rest) (S i))
        with (nth_error (q :: rest) i) in Hlo.
      change (nth_error (p0 :: q :: rest) (S (S i)))
        with (nth_error (q :: rest) (S i)) in Hhi.
      assert (Hge : fst q <= fst lo).
      { destruct i as [|i].
        - injection Hlo as <-. lra.
        - apply Qlt_le_weak.
          apply (increasing_nth_lt _ _ (map fst rest) i Hinc').
          simpl in Hlo. rewrite nth_error_map, Hlo. reflexivity. }
      assert (Hlt : Py.lt t (fst q) = false) by (apply lt_false; lra).
      rewrite Hlt. exact (IH q lo hi i t Hinc' Hlo Hhi Hl Hh).
Qed.

Section Interpolation.

Variables x y : list Q.
Hypothesis Hlen : List.length x = List.length y.
Hypothesis Hinc : Spec.strictly_increasing x = true.

Lemma interp1d_below (t : Q) : t < hd 0 x -> Np.interp1d x y t = 0.
Proof.
  intro Ht. unfold Np.interp1d.
  rewrite sort_points_increasing by (now rewrite map_fst_combine).
  destruct x as [|a x'], y as [|b y']; try discriminate; [reflexivity|].
  cbn [combine]. simpl in Ht.
  assert (Hb : Py.lt t (fst (a, b)) = true) by (apply lt_true; exact Ht).
  now rewrite Hb.
Qed.

(** Inside the range of the samples [interp1d] is [np.interp] on the
    samples as they are. *)
Lemma interp1d_inside (t : Q) (p0 : Q * Q) (rest : list (Q * Q)) :
  combine x y = p0 :: rest ->
  fst p0 <= t -> t <= last x 0 ->
  Np.interp1d x y t = Np.call_linear p0 rest t.
Proof.
  intros Hc Hfirst Hlast. unfold Np.interp1d.
  assert (Hpts : Spec.strictly_increasing (map fst (combine x y)) = true)
    by (now rewrite map_fst_combine).
  rewrite (sort_points_increasing _ Hpts), Hc.
  assert (Hx : x = map fst (p0 :: rest))
    by (rewrite <- Hc; symmetry; now apply map_fst_combine).
  assert (Hend : fst (last rest p0) = last x 0).
  { rewrite Hx, last_map_fst. cbn [map]. now rewrite last_cons. }
  assert (Hb : Py.lt t (fst p0) = false) by (apply lt_false; exact Hfirst).
  assert (Ha : Py.lt (fst (last rest p0)) t = false)
    by (apply lt_false; rewrite Hend; exact Hlast).
  now rewrite Hb, Ha.
Qed.

End Interpolation.

Section SampledThrust.

Import RocketSimulator.

Variables np_pi total_mass diameter cd : Q.
Variable engine : EngineParser.t.

Let sim : RocketSimulator.t :=
  of_engine np_pi total_mass diameter cd engine.
Let x : list Q := EngineParser.time engine.
Let y : list Q := EngineParser.thrust engine.

Hypothesis Hlen : List.length x = List.length y.
Hypothesis Htwo : (2 <= List.length x)%nat.
Hypothesis Hinc : Spec.strictly_increasing x = true.

Lemma sampled_thrust_in_range (t : Q) :
  t <= last x 0 -> thrust sim t = Np.interp1d x y t.
Proof.
  intro Ht. rewrite thrust_during_burn by exact Ht.
  unfold sim, of_engine, EngineParser.get_thrust_interpolator. cbn [mode].
  apply Nat.ltb_ge in Htwo. fold x. rewrite Htwo. reflexivity.
Qed.

Lemma samples_first_point :
  exists p0 rest,
    combine x y = p0 :: rest
    /\ Spec.strictly_increasing (map fst (p0 :: rest)) = true.
Proof.
  destruct (combine x y) as [|p0 rest] eqn:Hc.
  - apply (f_equal (@List.length _)) in Hc. rewrite length_combine in Hc.
    simpl in Hc. lia.
  - exists p0, rest. split; [reflexivity|].
    rewrite <- Hc, map_fst_combine by exact Hlen. exact Hinc.
Qed.

Lemma first_point_below (p0 : Q * Q) (rest : list (Q * Q)) (i : nat) (a : Q) :
  combine x y = p0 :: rest -> nth_error x i = Some a -> fst p0 <= a.
Proof.
  intros Hc Ha.
  assert (Hx : x = map fst (p0 :: rest))
    by (rewrite <- Hc; symmetry; now apply map_fst_combine).
  rewrite Hx in Ha. destruct i as [|i]; simpl in Ha.
  - injection Ha as <-. lra.
  - apply Qlt_le_weak.
    apply (increasing_nth_lt _ _ (map fst rest) i); [|exact Ha].
    cbn [map] in Hx. rewrite <- Hx. exact Hinc.
Qed.

Lemma sampled_thrust_at_time (i : nat) (xi yi t : Q) :
  nth_error x i = Some xi -> nth_error y i = Some yi -> t == xi ->
  thrust sim t = yi.
Proof.
  intros Hx Hy Ht.
  pose proof (increasing_nth_le_last _ 0 _ i Hinc Hx) as Hlast.
  rewrite sampled_thrust_in_range by lra.
  destruct samples_first_point as (p0 & rest & Hc & Hpts).
  pose proof (first_point_below p0 rest i xi Hc Hx) as Hfirst.
  rewrite (interp1d_inside x y Hlen Hinc t p0 rest Hc) by lra.
  pose proof (nth_error_combine_Some _ _ _ _ _ Hx Hy) as Hp.
  rewrite Hc in Hp.
  exact (call_linear_at_point rest p0 (xi, yi) i t Hpts Hp Ht).
Qed.

Lemma sampled_thrust_at_sample (i : nat) (xi yi : Q) :
  nth_error x i = Some xi -> nth_error y i = Some yi ->
  thrust sim xi = yi.
Proof.
  intros Hx Hy.
  exact (sampled_thrust_at_time i xi yi xi Hx Hy (Qeq_refl xi)).
Qed.

Lemma sampled_thrust_outside (t : Q) :
  t < hd 0 x \/ last x 0 < t -> thrust sim t = 0.
Proof.
  intros [Hbelow | Habove].
  - destruct (Qlt_le_dec (last x 0) t) as [Hgt | Hle].
    + exact (thrust_after_burn sim t Hgt).
    + rewrite sampled_thrust_in_range by exact Hle.
      exact (interp1d_below x y Hlen Hinc t Hbelow).
  - exact (thrust_after_burn sim t Habove).
Qed.

Lemma sampled_thrust_between (i : nat) (xa ya xb yb t : Q) :
  nth_error x i = Some xa -> nth_error y i = Some ya ->
  nth_error x (S i) = Some xb -> nth_error y (S i) = Some yb ->
  xa < t -> t < xb ->
  thrust sim t = (yb - ya) / (xb - xa) * (t - xa) + ya.
Proof.
  intros Hxa Hya Hxb Hyb Hl Hh.
  pose proof (increasing_nth_le_last _ 0 _ (S i) Hinc Hxb) as Hlast.
  rewrite sampled_thrust_in_range by lra.
  destruct samples_first_point as (p0 & rest & Hc & Hpts).
  pose proof (first_point_below p0 rest i xa Hc Hxa) as Hfirst.
  rewrite (interp1d_inside x y Hlen Hinc t p0 rest Hc) by lra.
  pose proof (nth_error_combine_Some _ _ _ _ _ Hxa Hya) as Hlo.
  pose proof (nth_error_combine_Some _ _ _ _ _ Hxb Hyb) as Hhi.
  rewrite Hc in Hlo, Hhi.
  exact (call_linear_between rest p0 (xa, ya) (xb, yb) i t Hpts Hlo Hhi
           Hl Hh).
Qed.

(** On one piece, from its lower sample on and before its upper one, the
    thrust moves from the lower sample's thrust towards the upper one's. *)
Lemma sampled_thrust_on_piece (i : nat) (xa ya xb yb t : Q) :
  nth_error x i = Some xa -> nth_error y i = Some ya ->
  nth_error x (S i) = Some xb -> nth_error y (S i) = Some yb ->
  xa <= t -> t < xb ->
  thrust sim t == (yb - ya) / (xb - xa) * (t - xa) + ya.
Proof.
  intros Hxa Hya Hxb Hyb Hl Hh.
  destruct (Qlt_le_dec xa t) as [Hlt | Hge].
  - rewrite (sampled_thrust_between i xa ya xb yb t Hxa Hya Hxb Hyb Hlt Hh).
    reflexivity.
  - assert (Heq : t == xa) by lra.
    rewrite (sampled_thrust_at_time i xa ya t Hxa Hya Heq), Heq.
    field. pose proof (increasing_consecutive x i xa xb Hinc Hxa Hxb). lra.
Qed.

Lemma sampled_thrust_monotone_on_piece (i : nat) (xa ya xb yb t1 t2 : Q) :
  nth_error x i = Some xa -> nth_error y i = Some ya ->
  nth_error x (S i) = Some xb -> nth_error y (S i) = Some yb ->
  xa <= t1 -> t1 <= t2 -> t2 < xb ->
  (ya <= yb -> thrust sim t1 <= thrust sim t2)
  /\ (yb <= ya -> thrust sim t2 <= thrust sim t1).
Proof.
  intros Hxa Hya Hxb Hyb H1 H12 H2.
  assert (Hab : xa < xb) by lra.
  rewrite (sampled_thrust_on_piece i xa ya xb yb t1 Hxa Hya Hxb Hyb)
    by lra.
  rewrite (sampled_thrust_on_piece i xa ya xb yb t2 Hxa Hya Hxb Hyb)
    by lra.
  set (slope := (yb - ya) / (xb - xa)).
  split; intro Hy.
  - assert (Hs : 0 <= slope) by (apply Qle_shift_div_l; lra). nra.
  - assert (Hs : slope <= 0) by (apply Qle_shift_div_r; lra). nra.
Qed.

(** C4, as the code has it.  For strictly increasing samples, two or
    more: at a sample's time the thrust is that sample's thrust, returned
    as it is; before the first and after the last sample time it is 0;
    strictly between two consecutive samples it is the linear piece
    [slope * (t - x_lo) + y_lo] with [slope = (y_hi - y_lo) / (x_hi -
    x_lo)]; and from a sample on and before the next the thrust is
    monotone in the time, rising where the next sample's thrust is not
    lower and falling where it is not higher. *)
Theorem sampled_thrust_interpolates :
  (forall i xi yi,
     nth_error x i = Some xi -> nth_error y i = Some yi ->
     thrust sim xi = yi)
  /\ (forall t, t < hd 0 x \/ last x 0 < t -> thrust sim t = 0)
  /\ (forall i xa ya xb yb t,
        nth_error x i = Some xa -> nth_error y i = Some ya ->
        nth_error x (S i) = Some xb -> nth_error y (S i) = Some yb ->
        xa < t -> t < xb ->
        thrust sim t = (yb - ya) / (xb - xa) * (t - xa) + ya)
  /\ (forall i xa ya xb yb t1 t2,
        nth_error x i = Some xa -> nth_error y i = Some ya ->
        nth_error x (S i) = Some xb -> nth_error y (S i) = Some yb ->
        xa <= t1 -> t1 <= t2 -> t2 < xb ->
        (ya <= yb -> thrust sim t1 <= thrust sim t2)
        /\ (yb <= ya -> thrust sim t2 <= thrust sim t1)).
Proof.
  split; [exact sampled_thrust_at_sample|].
  split; [exact sampled_thrust_outside|].
  split; [exact sampled_thrust_between|].
  exact sampled_thrust_monotone_on_piece.
Qed.

End SampledThrust.

Lemma sampled_thrust_interpolates_witness :
  RocketSimulator.thrust Examples.ramp_sim 1.0 = 50.0
  /\ RocketSimulator.thrust Examples.ramp_sim (-1) = 0
  /\ RocketSimulator.thrust Examples.ramp_sim 0.25
     = (50.0 - 0.0) / (1.0 - 0.0) * (0.25 - 0.0) + 0.0
  /\ RocketSimulator.thrust Examples.ramp_sim 0.25
     <= RocketSimulator.thrust Examples.ramp_sim 0.75.
Proof.
  destruct (sampled_thrust_interpolates Examples.pi5 1.0 0.060 0.9
              Examples.ramp eq_refl ltac:(simpl; lia) eq_refl)
    as (Hat & Hout & Hbetween & Hmono).
  assert (H0 : 0.0 < 0.25) by reflexivity.
  assert (H0' : 0.0 <= 0.25) by discriminate.
  assert (H1 : 0.25 < 1.0) by reflexivity.
  assert (H2 : 0.25 <= 0.75) by discriminate.
  assert (H3 : 0.75 < 1.0) by reflexivity.
  assert (Hy : 0.0 <= 50.0) by discriminate.
  split; [|split; [|split]].
  - apply (Hat 1%nat); reflexivity.
  - apply Hout. left. reflexivity.
  - exact (Hbetween 0%nat 0.0 0.0 1.0 50.0 0.25
             eq_refl eq_refl eq_refl eq_refl H0 H1).
  - exact (proj1 (Hmono 0%nat 0.0 0.0 1.0 50.0 0.25 0.75
                    eq_refl eq_refl eq_refl eq_refl H0' H2 H3) Hy).
Defined.

(** Against C4 as it is written, in binary64: for the samples
    (0.281, 0) and (1.533, 80.5) and a time just before the second, the
    thrust is above 80.5, the larger of the two sample thrusts: no convex
    combination of them. *)
Lemma sampled_thrust_leaves_the_range :
  (0.281 <? 1.5329999999999997)%float = true
  /\ (1.5329999999999997 <? 1.533)%float = true
  /\ Binary64.thrust [0.281; 1.533]%float [0; 80.5]%float
       1.5329999999999997%float
     = 80.500000000000014%float
  /\ (80.5 <? Binary64.thrust [0.281; 1.533]%float [0; 80.5]%float
                1.5329999999999997%float)%float = true.
Proof. repeat split; vm_compute; reflexivity. Qed.

(** ** The stepping loop *)

Section Loop.

Import RocketSimulator Simulate.

Variable np_exp : Q -> Q.
Variable self : RocketSimulator.t.
Variable dt : Q.

Local Abbreviation body := (Simulate.body np_exp self dt).
Local Abbreviation while_true := (Simulate.while_true np_exp self dt).
Local Abbreviation simulate := (Simulate.simulate np_exp self dt).
Local Abbreviation start := (Simulate.start self).

(** What one turn does to the locals, whichever way it ends. *)
Lemma body_inv (s s' : locals) (fl : flow) :
  body s = Ok (fl, s') ->
  t s' = t s + dt
  /\ times s' = times s ++ [t s']
  /\ heights s' = heights s ++ [h s']
  /\ velocities s' = velocities s ++ [v s']
  /\ thrusts s' = thrusts s ++ [thrust self (t s)]
  /\ (fl <> break_apogee -> apogee s' = apogee s)
  /\ (fl = break_apogee -> v s' <= 0 /\ 0 < h s')
  /\ (fl = next_turn -> t s' <= 300).
Proof.
  unfold Simulate.body.
  destruct (mass self (t s)) as [m|e|]; [|discriminate..]. cbn [Py.bind].
  destruct (Np.divide _ _ m) as [a|e|]; [|discriminate..]. cbn [Py.bind].
  destruct (Py.le _ 0 && Py.lt 0 _) eqn:Hap;
    [|destruct (Py.lt 300 _ || Py.lt _ (-10)) eqn:Hbd];
    intro H; injection H as <- <-; cbn;
    repeat split; try congruence; try discriminate.
  - apply andb_true_iff in Hap. apply le_true, Hap.
  - apply andb_true_iff in Hap. apply lt_true, Hap.
  - intros _. apply orb_false_iff in Hbd. apply lt_false, Hbd.
Qed.

(** Spare fuel does not change how the loop ends. *)
Lemma while_true_more_fuel (n m : nat) (s : locals)
    (r : result (flow * locals)) :
  while_true n s = Some r -> (n <= m)%nat -> while_true m s = Some r.
Proof.
  revert m s. induction n as [|n IH]; intros m s H Hle; [discriminate|].
  destruct m as [|m]; [lia|]. simpl in *.
  destruct (body s) as [[[] s']|e|]; try exact H.
  apply IH; [exact H | lia].
Qed.

(** The loop unfolds into its turns. *)
Lemma while_true_exit (fuel : nat) (s s' : locals) (fl : flow) :
  while_true fuel s = Some (Ok (fl, s')) ->
  fl <> next_turn
  /\ exists s0, body s0 = Ok (fl, s')
                /\ (apogee s = None -> apogee s0 = None).
Proof.
  revert s. induction fuel as [|fuel IH]; intros s H; [discriminate|].
  simpl in H. destruct (body s) as [[fl1 s1]|e|] eqn:Hb; [|discriminate..].
  destruct fl1.
  - destruct (IH s1 H) as (Hfl & s0 & Hs0 & Hap).
    split; [exact Hfl|]. exists s0. split; [exact Hs0|].
    intro Hnone. apply Hap.
    destruct (body_inv _ _ _ Hb) as (_ & _ & _ & _ & _ & Hkeep & _).
    rewrite Hkeep by discriminate. exact Hnone.
  - injection H as <- <-. split; [discriminate|].
    exists s. split; [exact Hb | tauto].
  - injection H as <- <-. split; [discriminate|].
    exists s. split; [exact Hb | tauto].
Qed.

(** A run that leaves the loop at the safety bounds has never bound
    [apogee], and the [return] statement raises. *)
Lemma safety_exit_raises (fuel : nat) (s : locals) :
  while_true fuel start = Some (Ok (break_bound, s)) ->
  simulate fuel = Some (Raise UnboundLocalError).
Proof.
  intro H. unfold Simulate.simulate. rewrite H.
  destruct (while_true_exit _ _ _ _ H) as (_ & s0 & Hb & Hap).
  destruct (body_inv _ _ _ Hb) as (_ & _ & _ & _ & _ & Hkeep & _).
  unfold return_dict. rewrite Hkeep by discriminate.
  rewrite Hap by reflexivity. reflexivity.
Qed.

(** *** The recorded series *)

Lemma series_ok_start : series_ok self dt start.
Proof.
  constructor; try reflexivity.
  intros i a b Ha Hb. destruct i as [|[|i]]; discriminate.
Qed.

Lemma hd_error_app {A : Type} (l : list A) (a x : A) :
  hd_error l = Some x -> hd_error (l ++ [a]) = Some x.
Proof. destruct l; [discriminate | intro H; exact H]. Qed.

Lemma nth_error_last {A : Type} (l : list A) (d : A) :
  l <> [] -> nth_error l (List.length l - 1) = Some (last l d).
Proof.
  induction l as [|a l IH]; [congruence|]. intros _.
  destruct l as [|b l]; [reflexivity|].
  change (last (a :: b :: l) d) with (last (b :: l) d).
  rewrite <- IH by discriminate. simpl. now rewrite Nat.sub_0_r.
Qed.

Lemma series_ok_body (s s' : locals) (fl : flow) :
  series_ok self dt s -> body s = Ok (fl, s') -> series_ok self dt s'.
Proof.
  intros [Lh Lv Lth Ft Fh Fv Fth Last Steps] Hb.
  destruct (body_inv _ _ _ Hb) as (Ht & Hts & Hhs & Hvs & Hths & _).
  assert (Hne : times s <> []) by (intro E; rewrite E in Ft; discriminate).
  constructor.
  - rewrite Hhs, Hts, !length_app, Lh. reflexivity.
  - rewrite Hvs, Hts, !length_app, Lv. reflexivity.
  - rewrite Hths, Hts, !length_app, Lth. reflexivity.
  - rewrite Hts. now apply hd_error_app.
  - rewrite Hhs. now apply hd_error_app.
  - rewrite Hvs. now apply hd_error_app.
  - rewrite Hths. now apply hd_error_app.
  - rewrite Hts. apply last_last.
  - intros i a b Ha Hb'. rewrite Hts in Ha, Hb'.
    destruct (Nat.lt_ge_cases (S i) (List.length (times s))) as [Hin | Hout].
    + rewrite nth_error_app1 in Ha by lia.
      rewrite nth_error_app1 in Hb' by lia.
      exact (Steps i a b Ha Hb').
    + pose proof (nth_error_in_range _ _ _ Hb') as Hi.
      rewrite length_app in Hi. simpl in Hi.
      assert (Hpos : (0 < List.length (times s))%nat)
        by (destruct (times s); [congruence | simpl; lia]).
      assert (Hi' : i = (List.length (times s) - 1)%nat) by lia.
      rewrite nth_error_app1 in Ha by lia.
      rewrite nth_error_app2 in Hb' by lia.
      replace (S i - List.length (times s))%nat with 0%nat in Hb' by lia.
      simpl in Hb'. injection Hb' as <-.
      rewrite Hi', (nth_error_last _ 0 Hne), Last in Ha.
      injection Ha as <-. exact Ht.
Qed.

Lemma series_ok_while_true (fuel : nat) (s s' : locals) (fl : flow) :
  series_ok self dt s -> while_true fuel s = Some (Ok (fl, s')) ->
  series_ok self dt s'.
Proof.
  revert s. induction fuel as [|fuel IH]; intros s Hs H; [discriminate|].
  simpl in H. destruct (body s) as [[fl1 s1]|e|] eqn:Hb; [|discriminate..].
  pose proof (series_ok_body _ _ _ Hs Hb) as Hs1.
  destruct fl1.
  - exact (IH s1 Hs1 H).
  - injection H as <- <-. exact Hs1.
  - injection H as <- <-. exact Hs1.
Qed.

(** C10. In the dictionary a run returns, the four series have one
    length, they start with the time 0, the height 0, the velocity 0 and
    the thrust at time 0, and every later time is the one before plus
    [dt]. *)
Theorem simulate_series (fuel : nat) (r : Results.dict) :
  simulate fuel = Some (Ok r) ->
  List.length (Results.heights r) = List.length (Results.times r)
  /\ List.length (Results.velocities r) = List.length (Results.times r)
  /\ List.length (Results.thrusts r) = List.length (Results.times r)
  /\ hd_error (Results.times r) = Some 0
  /\ hd_error (Results.heights r) = Some 0
  /\ hd_error (Results.velocities r) = Some 0
  /\ hd_error (Results.thrusts r) = Some (thrust self 0)
  /\ (forall i a b,
        nth_error (Results.times r) i = Some a ->
        nth_error (Results.times r) (S i) = Some b -> b = a + dt).
Proof.
  unfold Simulate.simulate.
  destruct (while_true fuel start) as [[[fl s]|e|]|] eqn:Hrun;
    try discriminate.
  intro Hret.
  destruct (series_ok_while_true _ _ _ _ series_ok_start Hrun)
    as [Lh Lv Lth Ft Fh Fv Fth _ Steps].
  unfold return_dict in Hret.
  destruct (apogee s), (time_to_apogee s); try discriminate.
  injection Hret as <-. cbn.
  repeat split; assumption.
Qed.

End Loop.

(** ** A motor without thrust *)

Section ZeroThrust.

Import RocketSimulator Simulate.

Variable np_exp : Q -> Q.
Variable self : RocketSimulator.t.
Variable dt : Q.

Hypothesis Hdt : 0 < dt.
Hypothesis Hzero : forall t, thrust self t == 0.
Hypothesis Hburn : 0 < burn_time self.
Hypothesis Hm0 : 0 < m0 self.
Hypothesis Hmf : 0 < mf self.
Hypothesis Hfinal : mf self == m0 self - mp self.
Hypothesis Hg : 0 < g self.

Local Abbreviation body := (Simulate.body np_exp self dt).
Local Abbreviation while_true := (Simulate.while_true np_exp self dt).
Local Abbreviation start := (Simulate.start self).

(** Between the lift-off mass and the final mass, both positive, the mass
    is positive. *)
Lemma mass_positive (t : Q) :
  0 <= t -> exists m, mass self t = Ok m /\ 0 < m.
Proof.
  intro Ht. destruct (Qlt_le_dec (burn_time self) t) as [Hafter | Hduring].
  - exists (mf self). split; [now apply mass_after_burn | exact Hmf].
  - exists (m0 self - mp self / burn_time self * t).
    split; [apply mass_during_burn; lra|].
    assert (E : m0 self - mp self / burn_time self * t
                == (m0 self * (burn_time self - t) + mf self * t)
                   / burn_time self)
      by (rewrite Hfinal; field; lra).
    rewrite E. apply Qlt_shift_div_l; [exact Hburn|].
    destruct (Qlt_le_dec 0 t) as [Hpos | Hnull]; [nra|].
    assert (t == 0) as -> by lra. nra.
Qed.

(** A vehicle that is not rising and not above the ground stays so for one
    more turn: it falls with the acceleration [-g], without drag. *)
Lemma zero_thrust_body (s : locals) :
  0 <= t s -> v s <= 0 -> h s <= 0 ->
  exists fl s',
    body s = Ok (fl, s')
    /\ fl <> break_apogee
    /\ v s' <= 0 /\ h s' <= 0
    /\ (300 < t s + dt -> fl = break_bound).
Proof.
  intros Ht Hv Hh.
  destruct (mass_positive (t s) Ht) as (m & Hm & Hmpos).
  unfold Simulate.body. rewrite Hm. cbn [Py.bind].
  assert (Hnodrag : Py.lt 0 (v s) = false) by (apply lt_false; exact Hv).
  rewrite Hnodrag.
  rewrite divide_nonzero by lra. cbn [Py.bind].
  set (a := (thrust self (t s) - m * g self - 0) / m).
  assert (Ha : a == - g self)
    by (unfold a; rewrite (Hzero (t s)); field; lra).
  assert (Hv' : v s + a * dt <= 0) by (rewrite Ha; nra).
  assert (Hh' : h s + (v s + a * dt) * dt <= 0) by nra.
  assert (Hground : Py.lt 0 (h s + (v s + a * dt) * dt) = false)
    by (apply lt_false; exact Hh').
  rewrite Hground, andb_false_r.
  destruct (Py.lt 300 (t s + dt) || Py.lt _ (-10)) eqn:Hbound.
  - eexists _, _. split; [reflexivity|]. cbn.
    repeat split; try assumption; discriminate.
  - eexists _, _. split; [reflexivity|]. cbn.
    repeat split; try assumption; try discriminate.
    intro Hlate. apply orb_false_iff in Hbound.
    destruct Hbound as [Hb _]. apply lt_false in Hb. lra.
Qed.

Lemma inject_succ (n : nat) :
  inject_Z (Z.of_nat (S n)) == inject_Z (Z.of_nat n) + 1.
Proof.
  rewrite Nat2Z.inj_succ. unfold Z.succ. rewrite inject_Z_plus. reflexivity.
Qed.

(** The loop, entered in such a state with the time [300] in reach of the
    fuel, leaves at the safety bounds. *)
Lemma zero_thrust_run (n : nat) :
  forall s,
    0 <= t s -> t s <= 300 -> v s <= 0 -> h s <= 0 ->
    Forall (fun x => x <= 0) (heights s) ->
    300 - t s < inject_Z (Z.of_nat (S n)) * dt ->
    exists s',
      while_true (S n) s = Some (Ok (break_bound, s'))
      /\ t s' <= 300 + dt
      /\ Forall (fun x => x <= 0) (heights s')
      /\ (List.length (times s') <= List.length (times s) + S n)%nat.
Proof.
  induction n as [|n IH]; intros s Ht Ht300 Hv Hh Hhs Hfuel;
    destruct (zero_thrust_body s Ht Hv Hh)
      as (fl & s1 & Hb & Hnoap & Hv1 & Hh1 & Hlate);
    destruct (body_inv _ _ _ _ _ _ Hb)
      as (Ht1 & Hts1 & Hhs1 & _ & _ & _ & _ & Hnext);
    assert (Hhs' : Forall (fun x => x <= 0) (heights s1))
      by (rewrite Hhs1; apply Forall_app; split;
          [exact Hhs | constructor; [exact Hh1 | constructor]]);
    assert (Hlen1 : List.length (times s1) = S (List.length (times s)))
      by (rewrite Hts1, length_app; simpl; lia).
  - assert (Hfl : fl = break_bound).
    { apply Hlate. change (inject_Z (Z.of_nat 1)) with 1 in Hfuel. lra. }
    subst fl. exists s1. cbn [Simulate.while_true]. rewrite Hb.
    repeat split; [rewrite Ht1; lra | exact Hhs' | lia].
  - change (while_true (S (S n)) s)
      with (match body s with
            | Raise e => Some (Raise e)
            | NonFinite => Some NonFinite
            | Ok (next_turn, s') => while_true (S n) s'
            | Ok (exit, s') => Some (Ok (exit, s'))
            end).
    rewrite Hb. destruct fl; [|congruence|].
    + specialize (Hnext eq_refl).
      destruct (IH s1) as (s' & Hrun & Hend & Hhs'' & Hlen');
        try assumption; try (rewrite Ht1; lra).
      { rewrite inject_succ in Hfuel. rewrite Ht1. lra. }
      exists s'. repeat split; [exact Hrun | exact Hend | exact Hhs'' | lia].
    + exists s1. repeat split; [rewrite Ht1; lra | exact Hhs' | lia].
Qed.

(** The number of turns after which the time has passed 300 s. *)
Lemma turns_to_300 :
  300 < inject_Z (Z.of_nat (S (Z.to_nat (Qfloor (300 / dt))))) * dt.
Proof.
  assert (Hq : 0 <= 300 / dt) by (apply Qle_shift_div_l; lra).
  assert (Hfloor : (0 <= Qfloor (300 / dt))%Z).
  { change 0%Z with (Qfloor 0). apply Qfloor_resp_le. exact Hq. }
  rewrite inject_succ, Z2Nat.id by exact Hfloor.
  pose proof (Qlt_floor (300 / dt)) as Hlt.
  rewrite inject_Z_plus in Hlt. change (inject_Z 1) with 1 in Hlt.
  apply (Qmult_lt_compat_r _ _ dt) in Hlt; [|exact Hdt].
  assert (E : 300 / dt * dt == 300) by (field; lra).
  rewrite E in Hlt. exact Hlt.
Qed.


End ZeroThrust.

Lemma no_thrust_at_any_time (t : Q) :
  RocketSimulator.thrust Examples.no_thrust t == 0.
Proof.
  unfold RocketSimulator.thrust.
  destruct (Py.lt (RocketSimulator.burn_time Examples.no_thrust) t);
    reflexivity.
Qed.


Lemma simulate_series_witness :
  exists r,
    Simulate.simulate Examples.flat Examples.hop 0.5 10 = Some (Ok r)
    /\ List.length (Simulate.Results.heights r)
       = List.length (Simulate.Results.times r)
    /\ List.length (Simulate.Results.velocities r)
       = List.length (Simulate.Results.times r)
    /\ List.length (Simulate.Results.thrusts r)
       = List.length (Simulate.Results.times r)
    /\ hd_error (Simulate.Results.times r) = Some 0
    /\ hd_error (Simulate.Results.heights r) = Some 0
    /\ hd_error (Simulate.Results.velocities r) = Some 0
    /\ hd_error (Simulate.Results.thrusts r)
       = Some (RocketSimulator.thrust Examples.hop 0)
    /\ (forall i a b,
          nth_error (Simulate.Results.times r) i = Some a ->
          nth_error (Simulate.Results.times r) (S i) = Some b ->
          b = a + 0.5).
Proof.
  destruct (Simulate.simulate Examples.flat Examples.hop 0.5 10)
    as [[r|e|]|] eqn:Hrun; try (vm_compute in Hrun; discriminate).
  exists r. split; [reflexivity|].
  exact (simulate_series Examples.flat Examples.hop 0.5 10 r Hrun).
Defined.

(** C1. A run that leaves the loop at the safety bounds does not return:
    [apogee] was never assigned and the [return] statement raises
    [UnboundLocalError].  So does the run of the vehicle without thrust, at
    the default time step. *)
Theorem simulate_raises_at_safety_bounds :
  (forall np_exp self dt fuel s,
     Simulate.while_true np_exp self dt fuel (Simulate.start self)
     = Some (Ok (Simulate.break_bound, s)) ->
     Simulate.simulate np_exp self dt fuel = Some (Raise UnboundLocalError))
  /\ (forall np_exp fuel,
        (Z.to_nat 300001 <= fuel)%nat ->
        Simulate.simulate np_exp Examples.no_thrust Simulate.default_dt fuel
        = Some (Raise UnboundLocalError)).
Proof.
  split; [exact safety_exit_raises|].
  intros np_exp fuel Hfuel.
  assert (Hturns : Z.to_nat 300001
                   = S (Z.to_nat (Qfloor (300 / Simulate.default_dt)))).
  { replace (Qfloor (300 / Simulate.default_dt)) with 300000%Z
      by (vm_compute; reflexivity).
    lia. }
  assert (Hdt : 0 < Simulate.default_dt) by reflexivity.
  assert (Hburn : 0 < RocketSimulator.burn_time Examples.no_thrust)
    by reflexivity.
  assert (Hm0 : 0 < RocketSimulator.m0 Examples.no_thrust) by reflexivity.
  assert (Hmf : 0 < RocketSimulator.mf Examples.no_thrust)
    by (vm_compute; reflexivity).
  assert (Hfinal : RocketSimulator.mf Examples.no_thrust
                   == RocketSimulator.m0 Examples.no_thrust
                      - RocketSimulator.mp Examples.no_thrust)
    by reflexivity.
  assert (Hg : 0 < RocketSimulator.g Examples.no_thrust) by reflexivity.
  assert (H0 : 0 <= 0) by lra.
  assert (H300 : 0 <= 300) by lra.
  assert (Hhs : Forall (fun x => x <= 0)
                  (Simulate.heights (Simulate.start Examples.no_thrust)))
    by (constructor; [exact H0 | constructor]).
  assert (Hreach : 300 - Simulate.t (Simulate.start Examples.no_thrust)
                   < inject_Z (Z.of_nat (S (Z.to_nat
                       (Qfloor (300 / Simulate.default_dt)))))
                     * Simulate.default_dt).
  { change (Simulate.t (Simulate.start Examples.no_thrust)) with 0.
    pose proof (turns_to_300 Simulate.default_dt Hdt). lra. }
  destruct (zero_thrust_run np_exp Examples.no_thrust Simulate.default_dt
              Hdt no_thrust_at_any_time Hburn Hm0 Hmf Hfinal Hg
              (Z.to_nat (Qfloor (300 / Simulate.default_dt)))
              (Simulate.start Examples.no_thrust) H0 H300 H0 H0 Hhs Hreach)
    as (s & Hrun & _).
  apply (safety_exit_raises _ _ _ _ s).
  apply (while_true_more_fuel _ _ _ _ _ _ _ Hrun). lia.
Qed.

Lemma simulate_raises_at_safety_bounds_witness :
  Simulate.simulate Examples.flat Examples.no_thrust 400 1
  = Some (Raise UnboundLocalError).
Proof.
  eapply (proj1 simulate_raises_at_safety_bounds). reflexivity.
Defined.

(** ** Reading the motor file *)

(** The loop over the encodings has no [break]: after a successful read
    it goes on, and the last encoding that decodes the file decides
    [lines].  That is cp1252 when it decodes, else iso-8859-1. *)
Lemma read_lines_last_decoding (bytes : list byte) :
  EngineParser.read_lines (Some bytes)
  = Ok (Text.readlines
          match Codec.decode Codec.cp1252 bytes with
          | Some text => text
          | None => map Byte.to_N bytes
          end).
Proof.
  unfold EngineParser.read_lines, EngineParser.encodings.
  cbn [EngineParser.for_encodings EngineParser.try_encoding Py.bind
       Codec.decode Codec.decode_latin_1].
  destruct (Codec.decode_utf_8 bytes), (Codec.decode_cp1252 bytes);
    reflexivity.
Qed.

(** C2. The file [accented] decodes as UTF-8, the first encoding tried,
    yet the lines parsed are not the UTF-8 ones: the motor is named with
    the two cp1252 characters of the two bytes of the accented letter. *)
Theorem read_lines_not_first_decoding :
  exists text,
    Codec.decode Codec.utf_8 Examples.accented = Some text
    /\ EngineParser.read_lines (Some Examples.accented)
       <> Ok (Text.readlines text)
    /\ hd_error (Text.readlines text)
       = Some (Text.of_string "F" ++ [0xE9%N]
               ++ Text.of_string "35 29 95 0-4-6-8 0.090 0.118 TSP"
               ++ [0x0A%N])
    /\ exists engine,
         EngineParser.parse Float.decimal (Some Examples.accented)
         = Ok engine
         /\ EngineParser.name engine
            = Text.of_string "F" ++ [0xC3%N; 0xA9%N] ++ Text.of_string "35".
Proof.
  eexists. split; [vm_compute; reflexivity|].
  split; [vm_compute; discriminate|].
  split; [vm_compute; reflexivity|].
  eexists. split; [vm_compute; reflexivity|].
  vm_compute. reflexivity.
Qed.

(** ** The specification line *)

Section SpecificationLine.

Import Text EngineParser.

Variable float : str -> option Q.

Lemma find_spec_passes_over (self : EngineParser.t) (before rest : list str) :
  forall i,
    forallb passed_over before = true ->
    find_spec float self i (before ++ rest)
    = find_spec float self (i + List.length before) rest.
Proof.
  induction before as [|line before IH]; intros i Hpass.
  - simpl. now rewrite Nat.add_0_r.
  - cbn [forallb] in Hpass. apply andb_true_iff in Hpass.
    destruct Hpass as [Hline Hbefore].
    cbn [app find_spec]. unfold passed_over in Hline.
    destruct (skipped (strip line)) eqn:Hskip.
    + rewrite (IH (S i) Hbefore). f_equal. simpl. lia.
    + cbn [orb] in Hline. apply Nat.ltb_lt in Hline.
      assert (Hshort : (6 <=? List.length (split (strip line)))%nat = false)
        by (apply Nat.leb_gt; exact Hline).
      rewrite Hshort, (IH (S i) Hbefore). f_equal. simpl. lia.
Qed.

Lemma find_spec_none (self : EngineParser.t) (lines : list str) (i : nat) :
  forallb passed_over lines = true ->
  find_spec float self i lines = Ok (self, 0%nat).
Proof.
  intro Hpass. rewrite <- (app_nil_r lines).
  rewrite (find_spec_passes_over self lines [] i Hpass). reflexivity.
Qed.

Lemma skipn_past {A : Type} (before after : list A) (a : A) (i : nat) :
  i = List.length before -> skipn (S i) (before ++ a :: after) = after.
Proof.
  intros ->. induction before as [|b before IH]; [reflexivity | exact IH].
Qed.

(** Reading samples changes no field of the specification line. *)
Lemma read_sample_keeps_motor (self : EngineParser.t) (line : str) :
  let self' := read_sample float self line in
  name self' = name self /\ diameter self' = diameter self
  /\ length self' = length self
  /\ propellant_mass self' = propellant_mass self
  /\ total_mass self' = total_mass self.
Proof.
  unfold read_sample.
  destruct (skipped (strip line)); [repeat split|].
  destruct (2 <=? List.length (split (strip line)))%nat; [|repeat split].
  destruct (float (nth 0 (split (strip line)) [])); [|repeat split].
  destruct (float (nth 1 (split (strip line)) [])); repeat split.
Qed.

Lemma read_samples_keep_motor (lines : list str) :
  forall self,
    let self' := fold_left (read_sample float) lines self in
    name self' = name self /\ diameter self' = diameter self
    /\ length self' = length self
    /\ propellant_mass self' = propellant_mass self
    /\ total_mass self' = total_mass self.
Proof.
  induction lines as [|line lines IH]; intro self; [repeat split|].
  cbn [fold_left].
  destruct (IH (read_sample float self line)) as (Hn & Hd & Hl & Hp & Hm).
  destruct (read_sample_keeps_motor self line) as (Hn' & Hd' & Hl' & Hp' & Hm').
  repeat split; congruence.
Qed.

(** C3, as the code has it.  The search for the specification line passes
    over every line of fewer than six fields.  At the first line of six
    fields or more, a second, third, fifth or sixth field that is not a
    number raises [ValueError], which the entry point reports before it
    exits with status 1; four numbers make the motor, and the lines after
    it give the samples.  When every line is passed over, the motor keeps
    the fields of [__init__] and all lines are read as samples. *)
Theorem parse_specification_line :
  (forall file before spec after np_pi rocket_mass_empty diameter cd,
     read_lines (Some file) = Ok (before ++ spec :: after) ->
     forallb passed_over before = true ->
     passed_over spec = false ->
     Spec.specification_line float (strip spec) = false ->
     parse float (Some file) = Raise ValueError
     /\ Main.load_engine float np_pi (Some file) rocket_mass_empty diameter cd
        = Main.exit_1 (Main.parsing_error ValueError))
  /\ (forall file before spec after d l p m,
        read_lines (Some file) = Ok (before ++ spec :: after) ->
        forallb passed_over before = true ->
        passed_over spec = false ->
        float (nth 1 (split (strip spec)) []) = Some d ->
        float (nth 2 (split (strip spec)) []) = Some l ->
        float (nth 4 (split (strip spec)) []) = Some p ->
        float (nth 5 (split (strip spec)) []) = Some m ->
        exists engine,
          parse float (Some file) = Ok engine
          /\ engine
             = fold_left (read_sample float) after
                 (mk (nth 0 (split (strip spec)) []) d l p m [] [])
          /\ name engine = nth 0 (split (strip spec)) []
          /\ EngineParser.diameter engine = d
          /\ length engine = l
          /\ propellant_mass engine = p
          /\ total_mass engine = m)
  /\ (forall file lines,
        read_lines (Some file) = Ok lines ->
        forallb passed_over lines = true ->
        exists engine,
          parse float (Some file) = Ok engine
          /\ engine = fold_left (read_sample float) lines init
          /\ name engine = []
          /\ EngineParser.diameter engine = 0
          /\ length engine = 0
          /\ propellant_mass engine = 0
          /\ total_mass engine = 0).
Proof.
  split; [|split].
  - intros file before spec after np_pi rocket_mass_empty diameter cd
      Hread Hbefore Hspec Hbad.
    assert (Hparse : parse float (Some file) = Raise ValueError).
    { unfold parse, parse_lines. rewrite Hread. cbn [Py.bind].
      rewrite (find_spec_passes_over init before _ 0 Hbefore).
      cbn [find_spec]. unfold passed_over in Hspec.
      apply orb_false_iff in Hspec. destruct Hspec as [Hskip Hlong].
      rewrite Hskip. apply Nat.ltb_ge in Hlong.
      apply Nat.leb_le in Hlong. rewrite Hlong.
      unfold Spec.specification_line in Hbad. rewrite Hlong in Hbad.
      unfold read_spec, to_float, Spec.is_float in *.
      destruct (float (nth 1 (split (strip spec)) []));
        [|reflexivity].
      destruct (float (nth 2 (split (strip spec)) []));
        [|reflexivity].
      destruct (float (nth 4 (split (strip spec)) []));
        [|reflexivity].
      destruct (float (nth 5 (split (strip spec)) []));
        [|reflexivity].
      discriminate. }
    split; [exact Hparse|].
    unfold Main.load_engine. rewrite Hparse. reflexivity.
  - intros file before spec after d l p m Hread Hbefore Hspec Hd Hl Hp Hm.
    eexists. split; [|split; [reflexivity|]].
    + unfold parse, parse_lines. rewrite Hread. cbn [Py.bind].
      rewrite (find_spec_passes_over init before _ 0 Hbefore).
      cbn [find_spec]. unfold passed_over in Hspec.
      apply orb_false_iff in Hspec. destruct Hspec as [Hskip Hlong].
      rewrite Hskip. apply Nat.ltb_ge in Hlong.
      apply Nat.leb_le in Hlong. rewrite Hlong.
      unfold read_spec, to_float. rewrite Hd, Hl, Hp, Hm. cbn [Py.bind].
      rewrite skipn_past by reflexivity. reflexivity.
    + apply (read_samples_keep_motor after
               (mk (nth 0 (split (strip spec)) []) d l p m [] [])).
  - intros file lines Hread Hpass.
    eexists. split; [|split; [reflexivity|]].
    + unfold parse, parse_lines. rewrite Hread. cbn [Py.bind].
      rewrite (find_spec_none init lines 0 Hpass). reflexivity.
    + apply (read_samples_keep_motor lines init).
Qed.

End SpecificationLine.

Lemma parse_specification_line_witness :
  (EngineParser.parse Float.decimal (Some Examples.bad_number)
   = Raise ValueError
   /\ Main.load_engine Float.decimal Examples.pi5 (Some Examples.bad_number)
        0.910 0.060 0.9
      = Main.exit_1 (Main.parsing_error ValueError))
  /\ (exists engine,
        EngineParser.parse Float.decimal (Some Examples.preamble) = Ok engine
        /\ EngineParser.name engine = Text.of_string "F35"
        /\ EngineParser.propellant_mass engine == 0.090)
  /\ (exists engine,
        EngineParser.parse Float.decimal (Some Examples.headerless)
        = Ok engine
        /\ EngineParser.name engine = []
        /\ EngineParser.propellant_mass engine = 0).
Proof.
  destruct (parse_specification_line Float.decimal)
    as (Hbad & Hgood & Hnone).
  split; [|split].
  - pose (lines := Text.readlines (map Byte.to_N Examples.bad_number)).
    apply (Hbad Examples.bad_number (firstn 1 lines) (nth 1 lines [])
             (skipn 2 lines)); vm_compute; reflexivity.
  - pose (lines := Text.readlines (map Byte.to_N Examples.preamble)).
    destruct (Hgood Examples.preamble (firstn 1 lines) (nth 1 lines [])
                (skipn 2 lines) 29 95 0.090 0.118)
      as (engine & Hparse & _ & Hname & _ & _ & Hp & _);
      try (vm_compute; reflexivity).
    exists engine. split; [exact Hparse|]. split; [exact Hname|].
    rewrite Hp. reflexivity.
  - pose (lines := Text.readlines (map Byte.to_N Examples.headerless)).
    destruct (Hnone Examples.headerless lines)
      as (engine & Hparse & _ & Hname & _ & _ & Hp & _);
      try (vm_compute; reflexivity).
    exists engine. split; [exact Hparse|]. split; [exact Hname | exact Hp].
Defined.

(** Against C3 as it is written: [headerless] has no specification line
    (its first line has two fields), and it is parsed without error into a
    motor with the fields of [__init__], which the entry point loads. *)
Lemma parse_accepts_headerless_file :
  exists lines engine sim,
    EngineParser.read_lines (Some Examples.headerless) = Ok lines
    /\ Spec.has_specification_line Float.decimal lines = false
    /\ EngineParser.parse Float.decimal (Some Examples.headerless) = Ok engine
    /\ EngineParser.name engine = []
    /\ EngineParser.propellant_mass engine = 0
    /\ EngineParser.total_mass engine = 0
    /\ Main.load_engine Float.decimal Examples.pi5 (Some Examples.headerless)
         0.910 0.060 0.9
       = Main.loaded sim.
Proof.
  eexists _, _, _.
  split; [vm_compute; reflexivity|].
  split; [vm_compute; reflexivity|].
  split; [vm_compute; reflexivity|].
  repeat split.
Qed.

(** ** The samples of a parsed motor *)

Section ParsedSamples.

Import Text EngineParser.

Variable float : str -> option Q.

Lemma read_sample_paired (self : EngineParser.t) (line : str) :
  paired self -> paired (read_sample float self line).
Proof.
  unfold paired, read_sample. intro H.
  destruct (skipped (strip line)); [exact H|].
  destruct (2 <=? List.length (split (strip line)))%nat; [|exact H].
  destruct (float (nth 0 (split (strip line)) [])); [|exact H].
  destruct (float (nth 1 (split (strip line)) [])); [|exact H].
  cbn [time thrust]. rewrite !length_app, H. reflexivity.
Qed.

Lemma fold_read_sample_paired (lines : list str) :
  forall self, paired self -> paired (fold_left (read_sample float) lines self).
Proof.
  induction lines as [|line lines IH]; intros self H; [exact H|].
  exact (IH _ (read_sample_paired self line H)).
Qed.

Lemma find_spec_paired (lines : list str) :
  forall self i self' data_start,
    paired self ->
    find_spec float self i lines = Ok (self', data_start) -> paired self'.
Proof.
  induction lines as [|line lines IH]; intros self i self' data_start H Hfind.
  - injection Hfind as <- _. exact H.
  - cbn [find_spec] in Hfind.
    destruct (skipped (strip line)); [exact (IH _ _ _ _ H Hfind)|].
    destruct (6 <=? List.length (split (strip line)))%nat;
      [|exact (IH _ _ _ _ H Hfind)].
    unfold read_spec, to_float in Hfind.
    destruct (float (nth 1 (split (strip line)) [])); [|discriminate].
    destruct (float (nth 2 (split (strip line)) [])); [|discriminate].
    destruct (float (nth 4 (split (strip line)) [])); [|discriminate].
    destruct (float (nth 5 (split (strip line)) [])); [|discriminate].
    injection Hfind as <- _. exact H.
Qed.

(** Every motor that [parse] returns has as many times as thrusts. *)
Lemma parse_paired (file : option (list byte)) (engine : EngineParser.t) :
  parse float file = Ok engine -> paired engine.
Proof.
  unfold parse, parse_lines.
  destruct (read_lines file) as [lines|e|]; [|discriminate..]. cbn [Py.bind].
  destruct (find_spec float init 0 lines) as [[self data_start]|e|] eqn:Hfind;
    [|discriminate..].
  cbn [Py.bind]. intro H. injection H as <-.
  apply fold_read_sample_paired.
  exact (find_spec_paired lines init 0%nat self data_start eq_refl Hfind).
Qed.

End ParsedSamples.

(** * Further properties of the code *)

(** ** Reading: encodings and missing files *)

Lemma decode_utf_8_ascii (bytes : list byte) :
  DataLine.ascii bytes = true ->
  Codec.decode_utf_8 bytes = Some (map Byte.to_N bytes).
Proof.
  induction bytes as [|b bytes IH]; [reflexivity|].
  unfold DataLine.ascii. cbn [forallb]. intro H.
  apply andb_true_iff in H. destruct H as [Hb Hrest].
  cbn [Codec.decode_utf_8]. rewrite Hb, (IH Hrest). reflexivity.
Qed.

Lemma decode_cp1252_ascii (bytes : list byte) :
  DataLine.ascii bytes = true ->
  Codec.decode_cp1252 bytes = Some (map Byte.to_N bytes).
Proof.
  induction bytes as [|b bytes IH]; [reflexivity|].
  unfold DataLine.ascii. cbn [forallb]. intro H.
  apply andb_true_iff in H. destruct H as [Hb Hrest].
  cbn [Codec.decode_cp1252]. rewrite (IH Hrest).
  unfold Codec.cp1252_char, Text.in_range.
  apply N.ltb_lt in Hb.
  assert (Hlow : (0x80 <=? Byte.to_N b)%N = false) by (apply N.leb_gt; exact Hb).
  rewrite Hlow. reflexivity.
Qed.

(** On a plain ASCII file the five encodings give the same text, so the
    lines parsed are those of the first encoding, UTF-8. *)
Theorem ascii_file_same_in_every_encoding (bytes : list byte) :
  DataLine.ascii bytes = true ->
  (forall encoding,
     In encoding EngineParser.encodings ->
     Codec.decode encoding bytes = Some (map Byte.to_N bytes))
  /\ EngineParser.read_lines (Some bytes)
     = Ok (Text.readlines (map Byte.to_N bytes)).
Proof.
  intro Hascii. split.
  - intros encoding _.
    destruct encoding; cbn [Codec.decode];
      [apply decode_utf_8_ascii | reflexivity | apply decode_cp1252_ascii
      | reflexivity | apply decode_cp1252_ascii]; exact Hascii.
  - unfold EngineParser.read_lines, EngineParser.encodings.
    cbn [EngineParser.for_encodings EngineParser.try_encoding Py.bind
         Codec.decode Codec.decode_latin_1].
    rewrite (decode_utf_8_ascii bytes Hascii),
      (decode_cp1252_ascii bytes Hascii). reflexivity.
Qed.

Lemma ascii_file_same_in_every_encoding_witness :
  EngineParser.read_lines (Some Examples.preamble)
  = Ok (Text.readlines (map Byte.to_N Examples.preamble)).
Proof.
  apply (ascii_file_same_in_every_encoding Examples.preamble). reflexivity.
Defined.

(** A path that leads to no file: the first [open] raises
    [FileNotFoundError], which the loop over the encodings does not catch;
    [parse] raises it and the entry point reports the missing file,
    whatever the rest of the configuration. *)
Theorem missing_file_is_reported (float : Text.str -> option Q)
    (np_pi : Q) (c : Entry.config) :
  Entry.engine_file c = Some None ->
  EngineParser.parse float None = Raise FileNotFoundError
  /\ Entry.setup float np_pi c = Main.exit_1 Main.file_not_found.
Proof.
  intro Hfile. split; [reflexivity|].
  unfold Entry.setup. rewrite Hfile. reflexivity.
Qed.

Lemma missing_file_is_reported_witness :
  Entry.setup Float.decimal Examples.pi5
    (Entry.mk (Some None) 105.0 (115 / 105) 0.130 0.910 0.060 0.9)
  = Main.exit_1 Main.file_not_found.
Proof.
  apply (missing_file_is_reported Float.decimal Examples.pi5
           (Entry.mk (Some None) 105.0 (115 / 105) 0.130 0.910 0.060 0.9)).
  reflexivity.
Defined.

(** [parse] divides nothing: it returns a motor or raises. *)
Lemma find_spec_returns_or_raises (float : Text.str -> option Q)
    (lines : list Text.str) :
  forall self i, EngineParser.find_spec float self i lines <> NonFinite.
Proof.
  induction lines as [|line lines IH]; intros self i; [discriminate|].
  cbn [EngineParser.find_spec].
  destruct (EngineParser.skipped (Text.strip line)); [apply IH|].
  destruct (6 <=? List.length (Text.split (Text.strip line)))%nat;
    [|apply IH].
  unfold EngineParser.read_spec, EngineParser.to_float.
  repeat (match goal with
          | |- context [float ?s] => destruct (float s); cbn [Py.bind]
          end; try discriminate).
Qed.

Lemma parse_returns_or_raises (float : Text.str -> option Q)
    (file : option (list byte)) :
  EngineParser.parse float file <> NonFinite.
Proof.
  unfold EngineParser.parse, EngineParser.parse_lines.
  destruct (EngineParser.read_lines file) as [lines|e|] eqn:E;
    cbn [Py.bind]; [|discriminate|].
  - pose proof (find_spec_returns_or_raises float lines EngineParser.init 0)
      as Hfind.
    destruct (EngineParser.find_spec float EngineParser.init 0 lines)
      as [[self data_start]|e|]; cbn [Py.bind];
      [discriminate | discriminate | contradiction].
  - exfalso. destruct file as [bytes|]; [|discriminate].
    unfold EngineParser.read_lines, EngineParser.encodings in E.
    cbn [EngineParser.for_encodings EngineParser.try_encoding] in E.
    repeat (match type of E with
            | context [Codec.decode ?enc bytes] =>
                destruct (Codec.decode enc bytes); cbn [Py.bind] in E
            end);
      discriminate.
Qed.

(** A file that exists is always read: [parse] raises neither
    [FileNotFoundError] nor [UnboundLocalError], only the [ValueError] of a
    number that [float] refuses on the specification line. *)
Theorem parse_raises_only_ValueError (float : Text.str -> option Q)
    (bytes : list byte) (e : exn) :
  EngineParser.parse float (Some bytes) = Raise e -> e = ValueError.
Proof.
  unfold EngineParser.parse. rewrite read_lines_last_decoding.
  cbn [Py.bind]. unfold EngineParser.parse_lines.
  generalize (Text.readlines
                match Codec.decode Codec.cp1252 bytes with
                | Some text => text
                | None => map Byte.to_N bytes
                end).
  intro lines.
  assert (Hfind : forall self i e',
             EngineParser.find_spec float self i lines = Raise e' ->
             e' = ValueError).
  { induction lines as [|line lines IH]; intros self i e' H; [discriminate|].
    cbn [EngineParser.find_spec] in H.
    destruct (EngineParser.skipped (Text.strip line)); [exact (IH _ _ _ H)|].
    destruct (6 <=? List.length (Text.split (Text.strip line)))%nat;
      [|exact (IH _ _ _ H)].
    unfold EngineParser.read_spec, EngineParser.to_float in H.
    destruct (float (nth 1 (Text.split (Text.strip line)) []));
      [|cbn in H; congruence].
    destruct (float (nth 2 (Text.split (Text.strip line)) []));
      [|cbn in H; congruence].
    destruct (float (nth 4 (Text.split (Text.strip line)) []));
      [|cbn in H; congruence].
    destruct (float (nth 5 (Text.split (Text.strip line)) []));
      [|cbn in H; congruence].
    discriminate. }
  destruct (EngineParser.find_spec float EngineParser.init 0 lines)
    as [[self data_start]|e'|] eqn:E; cbn [Py.bind];
    [discriminate | | discriminate].
  intro H. injection H as <-. exact (Hfind _ _ _ E).
Qed.

Lemma parse_raises_only_ValueError_witness :
  EngineParser.parse Float.decimal (Some Examples.bad_number)
  = Raise ValueError.
Proof.
  destruct (EngineParser.parse Float.decimal (Some Examples.bad_number))
    as [engine|e|] eqn:E;
    [vm_compute in E; discriminate | | vm_compute in E; discriminate].
  f_equal.
  exact (parse_raises_only_ValueError Float.decimal Examples.bad_number e E).
Defined.

(** ** Parsing: which lines become samples *)

Section SampleLines.

Import Text EngineParser.

Variable float : str -> option Q.

Lemma read_sample_is_sample (self : EngineParser.t) (line : str) :
  read_sample float self line
  = match DataLine.sample float line with
    | Some (a, b) =>
        mk (name self) (EngineParser.diameter self) (length self)
           (propellant_mass self) (total_mass self)
           (time self ++ [a]) (thrust self ++ [b])
    | None => self
    end.
Proof.
  unfold read_sample, DataLine.sample.
  destruct (skipped (strip line)); [reflexivity|].
  destruct (split (strip line)) as [|p0 [|p1 parts]]; try reflexivity.
  cbn [List.length Nat.leb nth].
  destruct (float p0), (float p1); reflexivity.
Qed.

Lemma read_samples_append (lines : list str) :
  forall self,
    time (fold_left (read_sample float) lines self)
    = time self ++ map fst (DataLine.samples float lines)
    /\ thrust (fold_left (read_sample float) lines self)
       = thrust self ++ map snd (DataLine.samples float lines).
Proof.
  induction lines as [|line lines IH]; intro self.
  - cbn. now rewrite !app_nil_r.
  - cbn [fold_left DataLine.samples].
    destruct (IH (read_sample float self line)) as [Ht Hth].
    rewrite Ht, Hth, read_sample_is_sample.
    destruct (DataLine.sample float line) as [[a b]|]; [|split; reflexivity].
    cbn [time thrust map fst snd]. rewrite <- !app_assoc. split; reflexivity.
Qed.

Lemma find_spec_keeps_samples (lines : list str) :
  forall self i self' data_start,
    find_spec float self i lines = Ok (self', data_start) ->
    time self' = time self /\ thrust self' = thrust self.
Proof.
  induction lines as [|line lines IH]; intros self i self' data_start Hfind.
  - injection Hfind as <- _. split; reflexivity.
  - cbn [find_spec] in Hfind.
    destruct (skipped (strip line)); [exact (IH _ _ _ _ Hfind)|].
    destruct (6 <=? List.length (split (strip line)))%nat;
      [|exact (IH _ _ _ _ Hfind)].
    unfold read_spec, to_float in Hfind.
    destruct (float (nth 1 (split (strip line)) [])); [|discriminate].
    destruct (float (nth 2 (split (strip line)) [])); [|discriminate].
    destruct (float (nth 4 (split (strip line)) [])); [|discriminate].
    destruct (float (nth 5 (split (strip line)) [])); [|discriminate].
    injection Hfind as <- _. split; reflexivity.
Qed.

(** The samples of a parsed motor are the samples of the lines after the
    specification line (of all lines when there is none), in the order of
    the file.  A line that holds no sample (blank, comment, one field, a
    field that is not a number) changes nothing and raises nothing. *)
Theorem parsed_samples_in_file_order (lines : list str)
    (engine : EngineParser.t) :
  parse_lines float lines = Ok engine ->
  exists self data_start,
    find_spec float init 0 lines = Ok (self, data_start)
    /\ (data_start <= List.length lines)%nat
    /\ time engine
       = map fst (DataLine.samples float (skipn data_start lines))
    /\ thrust engine
       = map snd (DataLine.samples float (skipn data_start lines)).
Proof.
  unfold parse_lines.
  destruct (find_spec float init 0 lines) as [[self data_start]|e|] eqn:Hfind;
    [|discriminate..].
  cbn [Py.bind]. intro H. injection H as <-.
  exists self, data_start. split; [reflexivity|].
  destruct (find_spec_keeps_samples lines init 0%nat self data_start Hfind)
    as [Ht Hth].
  destruct (read_samples_append (skipn data_start lines) self) as [Ht' Hth'].
  rewrite Ht', Hth', Ht, Hth. cbn [time thrust init app].
  split; [|split; reflexivity].
  clear - Hfind.
  assert (Hgen : forall ls slf i slf' ds,
             find_spec float slf i ls = Ok (slf', ds) ->
             (ds <= i + List.length ls)%nat).
  { induction ls as [|l ls IH]; intros slf i slf' ds H.
    - injection H as _ <-. lia.
    - cbn [find_spec] in H.
      destruct (skipped (strip l)).
      + apply IH in H. simpl. lia.
      + destruct (6 <=? List.length (split (strip l)))%nat.
        * destruct (read_spec float slf (split (strip l)));
            [|discriminate..].
          cbn [Py.bind] in H. injection H as _ <-. simpl. lia.
        * apply IH in H. simpl. lia. }
  exact (Hgen lines init 0%nat self data_start Hfind).
Qed.

End SampleLines.

Lemma parsed_samples_in_file_order_witness :
  exists engine,
    EngineParser.parse_lines Float.decimal
      (Text.readlines (map Byte.to_N Examples.noisy)) = Ok engine
    /\ EngineParser.time engine = [0.0; 1.0; 2]
    /\ EngineParser.thrust engine = [0.0; 50.0; 0].
Proof.
  destruct (EngineParser.parse_lines Float.decimal
              (Text.readlines (map Byte.to_N Examples.noisy)))
    as [engine|e|] eqn:E; [|vm_compute in E; discriminate..].
  exists engine. split; [reflexivity|].
  destruct (parsed_samples_in_file_order Float.decimal _ engine E)
    as (self & data_start & Hfind & _ & Ht & Hth).
  vm_compute in Hfind. injection Hfind as _ <-.
  rewrite Ht, Hth. split; vm_compute; reflexivity.
Defined.

Lemma parse_paired_witness :
  exists engine,
    EngineParser.parse Float.decimal (Some Examples.noisy) = Ok engine
    /\ List.length (EngineParser.time engine)
       = List.length (EngineParser.thrust engine).
Proof.
  destruct (EngineParser.parse Float.decimal (Some Examples.noisy))
    as [engine|e|] eqn:E; [|vm_compute in E; discriminate..].
  exists engine. split; [reflexivity|].
  exact (parse_paired Float.decimal (Some Examples.noisy) engine E).
Defined.

(** ** The thrust curve of a sampled motor *)

Section ThrustCurve.

Import RocketSimulator.

Variables np_pi total_mass diameter cd : Q.
Variable engine : EngineParser.t.

Let sim : RocketSimulator.t :=
  of_engine np_pi total_mass diameter cd engine.
Let x : list Q := EngineParser.time engine.
Let y : list Q := EngineParser.thrust engine.

(** A motor of fewer than two samples gives no thrust at any time: the
    simulator built from it has the thrust 0 throughout. *)
Theorem degenerate_motor_has_no_thrust :
  (List.length x < 2)%nat -> forall t, thrust sim t = 0.
Proof.
  intros Hfew t. unfold thrust, sim, of_engine. cbn [burn_time mode].
  destruct (Py.lt _ t); [reflexivity|].
  unfold EngineParser.get_thrust_interpolator. fold x.
  apply Nat.ltb_lt in Hfew. now rewrite Hfew.
Qed.

End ThrustCurve.

Lemma degenerate_motor_has_no_thrust_witness :
  RocketSimulator.thrust
    (RocketSimulator.of_engine Examples.pi5 1.0 0.060 0.9 Examples.one_sample)
    0 = 0.
Proof.
  apply (degenerate_motor_has_no_thrust Examples.pi5 1.0 0.060 0.9
           Examples.one_sample).
  simpl. lia.
Defined.

(** ** The total impulse and the average thrust *)

Lemma trapezoid_not_negative (x : list Q) :
  forall y,
    List.length x = List.length y ->
    Spec.strictly_increasing x = true ->
    Forall (fun yi => 0 <= yi) y ->
    0 <= Np.trapezoid y x.
Proof.
  induction x as [|a x IH]; intros [|ya y] Hlen Hinc Hpos;
    try discriminate.
  destruct x as [|b x], y as [|yb y]; try discriminate.
  pose proof (increasing_head _ _ _ Hinc) as Hab.
  inversion Hpos as [|? ? Hya Hpos']; subst.
  pose proof Hpos' as Hpos''.
  inversion Hpos'' as [|? ? Hyb _]; subst.
  assert (Hrest : 0 <= Np.trapezoid (yb :: y) (b :: x)).
  { apply IH; [simpl in *; lia | exact (increasing_tail _ _ Hinc)
              | exact Hpos']. }
  change (Np.trapezoid (ya :: yb :: y) (a :: b :: x))
    with ((b - a) * (yb + ya) / 2 + Np.trapezoid (yb :: y) (b :: x)).
  assert (Hfirst : 0 <= (b - a) * (yb + ya) / 2).
  { apply Qle_shift_div_l; [lra | nra]. }
  lra.
Qed.

(** For samples of the data model (two or more, times not negative and
    strictly increasing) with no negative thrust, the average thrust is a
    number, and not negative. *)
Theorem average_thrust_not_negative (self : EngineParser.t) :
  List.length (EngineParser.time self)
  = List.length (EngineParser.thrust self) ->
  (2 <= List.length (EngineParser.time self))%nat ->
  Spec.nonnegative (EngineParser.time self) = true ->
  Spec.strictly_increasing (EngineParser.time self) = true ->
  Forall (fun yi => 0 <= yi) (EngineParser.thrust self) ->
  exists average,
    EngineParser.get_average_thrust self = Ok average /\ 0 <= average.
Proof.
  intros Hlen Htwo Hpos Hinc Hthrust.
  pose proof (trapezoid_not_negative _ _ Hlen Hinc Hthrust) as Hsum.
  unfold EngineParser.get_average_thrust, EngineParser.get_burn_time.
  apply Nat.ltb_ge in Htwo. rewrite Htwo.
  destruct (EngineParser.time self) as [|a [|b x]] eqn:Hx;
    try (simpl in Htwo; discriminate).
  pose proof (increasing_first_last a b 0 x Hinc) as Hlast.
  unfold Spec.nonnegative in Hpos. cbn [forallb] in Hpos.
  apply andb_true_iff in Hpos. destruct Hpos as [Ha _].
  apply le_true in Ha.
  set (end_time := last (a :: b :: x) 0) in *.
  change (last (b :: x) 0) with end_time in Hlast.
  assert (Hnz : ~ end_time == 0) by lra.
  change (Np.true_divide ?p ?q) with (Np.divide true p q).
  rewrite (divide_nonzero true _ _ Hnz).
  eexists. split; [reflexivity|].
  apply Qle_shift_div_l; lra.
Qed.

Lemma average_thrust_not_negative_witness :
  exists average,
    EngineParser.get_average_thrust Examples.ramp = Ok average
    /\ 0 <= average.
Proof.
  apply (average_thrust_not_negative Examples.ramp).
  - reflexivity.
  - simpl. lia.
  - reflexivity.
  - reflexivity.
  - repeat constructor; vm_compute; discriminate.
Defined.

(** ** The drag *)

Section Drag.

Import RocketSimulator.

Variable np_exp : Q -> Q.
Variable self : RocketSimulator.t.

Lemma square (q : Q) : q ^ 2 == q * q.
Proof. reflexivity. Qed.

(** The drag does not see the sign of the velocity: it is the same for
    [-v] as for [v], it is 0 at rest, and it is never negative when the
    density, the drag coefficient and the area are not.  (It is the caller,
    [simulate], that applies it to a rising vehicle only.) *)
Theorem drag_force_even_and_nonnegative (velocity altitude : Q) :
  drag_force np_exp self (- velocity) altitude
  == drag_force np_exp self velocity altitude
  /\ drag_force np_exp self 0 altitude == 0
  /\ (0 <= rho self -> 0 <= cd self -> 0 <= area self ->
      0 <= np_exp (- altitude / 8500) ->
      0 <= drag_force np_exp self velocity altitude).
Proof.
  unfold drag_force. rewrite !square.
  generalize (np_exp (- altitude / 8500)). intro e.
  split; [ring|]. split; [ring|].
  intros Hrho Hcd Harea He.
  assert (Hv : 0 <= velocity * velocity) by nra.
  assert (H1 : 0 <= rho self * e) by nra.
  assert (H2 : 0 <= 0.5 * (rho self * e) * (velocity * velocity)) by nra.
  assert (H3 : 0 <= 0.5 * (rho self * e) * (velocity * velocity) * cd self)
    by nra.
  nra.
Qed.

End Drag.

Lemma drag_force_even_and_nonnegative_witness :
  0 <= RocketSimulator.drag_force Examples.flat Examples.manual 30 100.
Proof.
  apply (drag_force_even_and_nonnegative Examples.flat Examples.manual 30 100);
    vm_compute; discriminate.
Defined.

(** ** The flight that [simulate] returns *)

Lemma nth_error_snoc {A : Type} (l : list A) (a b : A) (i : nat) :
  nth_error (l ++ [a]) i = Some b ->
  ((i < List.length l)%nat /\ nth_error l i = Some b)
  \/ (i = List.length l /\ b = a).
Proof.
  intro H. destruct (Nat.lt_ge_cases i (List.length l)) as [Hlt | Hge].
  - left. split; [exact Hlt|]. now rewrite nth_error_app1 in H.
  - right. pose proof (nth_error_in_range _ _ _ H) as Hi.
    rewrite length_app in Hi. simpl in Hi.
    assert (Hi' : i = List.length l) by lia. split; [exact Hi'|].
    subst i. rewrite nth_error_app2, Nat.sub_diag in H by lia.
    simpl in H. congruence.
Qed.

Lemma nth_error_snoc_new {A : Type} (l : list A) (a : A) :
  nth_error (l ++ [a]) (List.length l) = Some a.
Proof. rewrite nth_error_app2, Nat.sub_diag by lia. reflexivity. Qed.

Lemma nth_error_snoc_old {A : Type} (l : list A) (a b : A) (i : nat) :
  nth_error l i = Some b -> nth_error (l ++ [a]) i = Some b.
Proof.
  intro H. rewrite nth_error_app1; [exact H|].
  exact (nth_error_in_range _ _ _ H).
Qed.

Lemma or_zero_Some (q : Q) : or_zero (Some q) == q.
Proof.
  unfold or_zero. destruct (Qeq_bool q 0) eqn:E; [|reflexivity].
  apply Qeq_bool_iff in E. symmetry. exact E.
Qed.

Section Flight.

Import RocketSimulator Simulate.

Variable np_exp : Q -> Q.
Variable self : RocketSimulator.t.
Variable dt : Q.

Local Abbreviation body := (Simulate.body np_exp self dt).
Local Abbreviation while_true := (Simulate.while_true np_exp self dt).
Local Abbreviation simulate := (Simulate.simulate np_exp self dt).
Local Abbreviation start := (Simulate.start self).

(** The drag of a turn, as [simulate] applies it. *)
Local Abbreviation drag_at v h :=
  (if Py.lt 0 v then drag_force np_exp self v h else 0).

(** One turn, in full. *)
Lemma body_step (s s' : locals) (fl : flow) :
  body s = Ok (fl, s') ->
  (exists m a,
     mass self (t s) = Ok m
     /\ truediv (thrust self (t s) - m * g self - drag_at (v s) (h s)) m
        = Ok a
     /\ v s' = v s + a * dt)
  /\ h s' = h s + v s' * dt
  /\ v_at_2m s'
     = (if is_None (v_at_2m s) && Py.le 2.0 (h s') then Some (v s')
        else v_at_2m s)
  /\ t_at_2m s'
     = (if is_None (v_at_2m s) && Py.le 2.0 (h s') then Some (t s')
        else t_at_2m s)
  /\ (fl = break_apogee ->
      apogee s' = Some (h s') /\ time_to_apogee s' = Some (t s'))
  /\ (fl <> break_apogee -> ~ (v s' <= 0 /\ 0 < h s'))
  /\ (fl = next_turn -> - (10) <= h s').
Proof.
  unfold Simulate.body.
  destruct (mass self (t s)) as [m|e|]; [|discriminate..]. cbn [Py.bind].
  destruct (Np.divide _ _ m) as [a|e|] eqn:Ha; [|discriminate..]. cbn [Py.bind].
  apply divide_Ok in Ha.
  destruct (Py.le _ 0 && Py.lt 0 _) eqn:Hap;
    [|destruct (Py.lt 300 _ || Py.lt _ (-10)) eqn:Hbd];
    intro H; injection H as <- <-; cbn [v h t v_at_2m t_at_2m apogee
                                         time_to_apogee];
    (split; [exists m, a; repeat split; exact Ha|]);
    repeat split; try congruence; try discriminate.
  - intros _ [Hv Hh]. apply le_true in Hv. apply lt_true in Hh.
    rewrite Hv, Hh in Hap. discriminate.
  - intros _ [Hv Hh]. apply le_true in Hv. apply lt_true in Hh.
    rewrite Hv, Hh in Hap. discriminate.
  - intros _. apply orb_false_iff in Hbd. apply lt_false, Hbd.
Qed.

(** A property of the locals that every turn keeps holds when the loop is
    left. *)
Lemma while_true_keeps (P : locals -> Prop) :
  (forall s fl s',
     series_ok self dt s -> P s -> body s = Ok (fl, s') -> P s') ->
  forall fuel s fl s',
    series_ok self dt s -> P s ->
    while_true fuel s = Some (Ok (fl, s')) -> P s'.
Proof.
  intros Hstep fuel. induction fuel as [|fuel IH]; intros s fl s' Hs HP H;
    [discriminate|].
  simpl in H. destruct (body s) as [[fl1 s1]|e|] eqn:Hb; [|discriminate..].
  pose proof (series_ok_body _ _ _ _ _ _ Hs Hb) as Hs1.
  pose proof (Hstep _ _ _ Hs HP Hb) as HP1.
  destruct fl1.
  - exact (IH _ _ _ Hs1 HP1 H).
  - injection H as <- <-. exact HP1.
  - injection H as <- <-. exact HP1.
Qed.

(** The turn that leaves the loop starts from locals that satisfy what
    every turn that goes on keeps. *)
Lemma while_true_last_turn (P : locals -> Prop) :
  (forall s s',
     series_ok self dt s -> P s -> body s = Ok (next_turn, s') -> P s') ->
  forall fuel s fl s',
    series_ok self dt s -> P s ->
    while_true fuel s = Some (Ok (fl, s')) ->
    exists s0,
      series_ok self dt s0 /\ P s0 /\ body s0 = Ok (fl, s')
      /\ fl <> next_turn.
Proof.
  intros Hstep fuel. induction fuel as [|fuel IH]; intros s fl s' Hs HP H;
    [discriminate|].
  simpl in H. destruct (body s) as [[fl1 s1]|e|] eqn:Hb; [|discriminate..].
  destruct fl1.
  - apply (IH s1 fl s'); [|exact (Hstep _ _ Hs HP Hb) | exact H].
    exact (series_ok_body _ _ _ _ _ _ Hs Hb).
  - injection H as <- <-. exists s.
    split; [exact Hs | split; [exact HP | split; [exact Hb | discriminate]]].
  - injection H as <- <-. exists s.
    split; [exact Hs | split; [exact HP | split; [exact Hb | discriminate]]].
Qed.

(** A run that returns left the loop at the apogee test, and the
    dictionary is made of the locals of that moment. *)
Lemma simulate_returns (P : locals -> Prop) (fuel : nat) (r : Results.dict) :
  (forall s s',
     series_ok self dt s -> P s -> body s = Ok (next_turn, s') -> P s') ->
  P start ->
  simulate fuel = Some (Ok r) ->
  exists s0 s,
    series_ok self dt s0 /\ P s0 /\ body s0 = Ok (break_apogee, s)
    /\ while_true fuel start = Some (Ok (break_apogee, s))
    /\ r = Results.mk (h s) (t s) (or_zero (v_at_2m s)) (or_zero (t_at_2m s))
             (times s) (heights s) (velocities s) (thrusts s).
Proof.
  intros Hstep Hstart. unfold Simulate.simulate.
  destruct (while_true fuel start) as [[[fl s]|e|]|] eqn:Hrun;
    try discriminate.
  intro Hret.
  destruct (while_true_last_turn (fun s => P s /\ apogee s = None))
    with (fuel := fuel) (s := start) (fl := fl) (s' := s)
    as (s0 & Hs0 & [HP0 Hnone] & Hb & Hfl).
  - intros s1 s2 Hs1 [HP1 Hn1] Hb1. split; [exact (Hstep _ _ Hs1 HP1 Hb1)|].
    destruct (body_inv _ _ _ _ _ _ Hb1) as (_ & _ & _ & _ & _ & Hkeep & _).
    rewrite Hkeep by discriminate. exact Hn1.
  - apply series_ok_start.
  - split; [exact Hstart | reflexivity].
  - exact Hrun.
  - destruct (body_inv _ _ _ _ _ _ Hb) as (_ & _ & _ & _ & _ & Hkeep & _).
    destruct (body_step _ _ _ Hb) as (_ & _ & _ & _ & Hapo & _).
    unfold return_dict in Hret.
    destruct fl.
    + congruence.
    + destruct (Hapo eq_refl) as [Ha Hta]. rewrite Ha, Hta in Hret.
      injection Hret as <-. exists s0, s.
      split; [exact Hs0|]. split; [exact HP0|]. split; [exact Hb|].
      split; reflexivity.
    + rewrite Hkeep, Hnone in Hret by discriminate. discriminate.
Qed.

End Flight.

Lemma nth_error_is_last {A : Type} (l : list A) (d a : A) (i : nat) :
  nth_error l i = Some a -> S i = List.length l -> a = last l d.
Proof.
  intros Hnth Hi.
  assert (Hne : l <> []) by (intro E; subst l; discriminate).
  pose proof (nth_error_last l d Hne) as Hlast.
  replace (List.length l - 1)%nat with i in Hlast by lia. congruence.
Qed.


Section Returned.

Import RocketSimulator Simulate.

Variable np_exp : Q -> Q.
Variable self : RocketSimulator.t.
Variable dt : Q.

Local Abbreviation body := (Simulate.body np_exp self dt).
Local Abbreviation while_true := (Simulate.while_true np_exp self dt).
Local Abbreviation simulate := (Simulate.simulate np_exp self dt).
Local Abbreviation start := (Simulate.start self).

(** The run that returns stopped at an apogee: the apogee is the last
    recorded height and is above the ground, the last recorded velocity is
    not upward, and the time to the apogee is the last recorded time. *)
Theorem returned_apogee_is_last_record (fuel : nat) (r : Results.dict) :
  simulate fuel = Some (Ok r) ->
  0 < Results.apogeo r
  /\ last (Results.heights r) 0 = Results.apogeo r
  /\ last (Results.velocities r) 0 <= 0
  /\ last (Results.times r) 0 = Results.tempo_apogeo r.
Proof.
  intro Hret.
  destruct (simulate_returns np_exp self dt (fun _ => True) fuel r)
    as (s0 & s & Hs0 & _ & Hb & Hrun & ->); try tauto.
  cbn [Results.apogeo Results.heights Results.velocities Results.times
       Results.tempo_apogeo].
  destruct (body_inv _ _ _ _ _ _ Hb)
    as (Ht & Hts & Hhs & Hvs & _ & _ & Hapo & _).
  destruct (Hapo eq_refl) as [Hv Hh].
  pose proof (series_ok_body _ _ _ _ _ _ Hs0 Hb) as Hs.
  split; [exact Hh|]. split; [rewrite Hhs; apply last_last|].
  split; [rewrite Hvs, last_last; exact Hv|].
  exact (last_time _ _ _ Hs).
Qed.

(** The apogee returned is the first one: no earlier record has a
    velocity that is not upward at a height above the ground, and every
    earlier record is within the safety bounds. *)
Theorem returned_apogee_is_first (fuel : nat) (r : Results.dict) :
  simulate fuel = Some (Ok r) ->
  forall i hi vi ti,
    (S i < List.length (Results.times r))%nat ->
    nth_error (Results.heights r) i = Some hi ->
    nth_error (Results.velocities r) i = Some vi ->
    nth_error (Results.times r) i = Some ti ->
    ~ (vi <= 0 /\ 0 < hi) /\ ti <= 300 /\ - (10) <= hi.
Proof.
  intro Hret.
  pose (running := fun s : locals =>
          forall i hi vi ti,
            nth_error (heights s) i = Some hi ->
            nth_error (velocities s) i = Some vi ->
            nth_error (times s) i = Some ti ->
            ~ (vi <= 0 /\ 0 < hi) /\ ti <= 300 /\ - (10) <= hi).
  destruct (simulate_returns np_exp self dt running fuel r)
    as (s0 & s & Hs0 & Hrun0 & Hb & _ & ->); try exact Hret.
  - intros s1 s2 Hs1 H1 Hb1 i hi vi ti Hh Hv Ht.
    destruct (body_inv _ _ _ _ _ _ Hb1)
      as (_ & Hts & Hhs & Hvs & _ & _ & _ & Hnext).
    destruct (body_step _ _ _ _ _ _ Hb1)
      as (_ & _ & _ & _ & _ & Hnoap & Hfloor).
    rewrite Hhs in Hh. rewrite Hvs in Hv. rewrite Hts in Ht.
    apply nth_error_snoc in Hh. apply nth_error_snoc in Hv.
    apply nth_error_snoc in Ht.
    pose proof (len_heights _ _ _ Hs1) as Lh.
    pose proof (len_velocities _ _ _ Hs1) as Lv.
    destruct Hh as [[Hi Hh] | [Hi ->]].
    + destruct Hv as [[_ Hv] | [Hi' _]]; [|lia].
      destruct Ht as [[_ Ht] | [Hi' _]]; [|lia].
      exact (H1 i hi vi ti Hh Hv Ht).
    + destruct Hv as [[Hi' _] | [_ ->]]; [lia|].
      destruct Ht as [[Hi' _] | [_ ->]]; [lia|].
      split; [apply Hnoap; discriminate|].
      split; [exact (Hnext eq_refl) | exact (Hfloor eq_refl)].
  - intros [|[|i]] hi vi ti Hh Hv Ht; try discriminate.
    cbn in Hh, Hv, Ht. injection Hh as <-. injection Hv as <-.
    injection Ht as <-. split; [lra|]. split; lra.
  - cbn [Results.heights Results.velocities Results.times].
    intros i hi vi ti Hi Hh Hv Ht.
    destruct (body_inv _ _ _ _ _ _ Hb) as (_ & Hts & Hhs & Hvs & _).
    pose proof (len_heights _ _ _ Hs0) as Lh.
    pose proof (len_velocities _ _ _ Hs0) as Lv.
    rewrite Hts, length_app in Hi. simpl in Hi.
    rewrite Hhs in Hh. rewrite Hvs in Hv. rewrite Hts in Ht.
    apply nth_error_snoc in Hh. apply nth_error_snoc in Hv.
    apply nth_error_snoc in Ht.
    destruct Hh as [[_ Hh] | [Hi' _]]; [|lia].
    destruct Hv as [[_ Hv] | [Hi' _]]; [|lia].
    destruct Ht as [[_ Ht] | [Hi' _]]; [|lia].
    exact (Hrun0 i hi vi ti Hh Hv Ht).
Qed.

End Returned.

Section Recorded.

Import RocketSimulator Simulate.

Variable np_exp : Q -> Q.
Variable self : RocketSimulator.t.
Variable dt : Q.

Local Abbreviation body := (Simulate.body np_exp self dt).
Local Abbreviation while_true := (Simulate.while_true np_exp self dt).
Local Abbreviation simulate := (Simulate.simulate np_exp self dt).
Local Abbreviation start := (Simulate.start self).
Local Abbreviation drag_at v h :=
  (if Py.lt 0 v then drag_force np_exp self v h else 0).

(** What the locals [v_at_2m] and [t_at_2m] hold: nothing while every
    recorded height is below 2, else the velocity and the time of the
    first record at 2 or above. *)
Local Abbreviation ramp_event s :=
  (match v_at_2m s, t_at_2m s with
   | None, None => Forall (fun hj => hj < 2.0) (heights s)
   | Some v2, Some t2 =>
       exists i hi,
         nth_error (heights s) i = Some hi /\ 2.0 <= hi
         /\ (forall j hj, (j < i)%nat ->
                          nth_error (heights s) j = Some hj -> hj < 2.0)
         /\ nth_error (velocities s) i = Some v2
         /\ nth_error (times s) i = Some t2
   | _, _ => False
   end).

Lemma ramp_event_kept (s s' : locals) (fl : flow) :
  series_ok self dt s -> ramp_event s -> body s = Ok (fl, s') ->
  ramp_event s'.
Proof.
  intros Hs Hev Hb.
  destruct (body_inv _ _ _ _ _ _ Hb) as (_ & Hts & Hhs & Hvs & _).
  destruct (body_step _ _ _ _ _ _ Hb) as (_ & _ & Hv2 & Ht2 & _).
  pose proof (len_heights _ _ _ Hs) as Lh.
  pose proof (len_velocities _ _ _ Hs) as Lv.
  rewrite Hv2, Ht2, Hhs, Hvs, Hts.
  destruct (v_at_2m s) as [v2|], (t_at_2m s) as [t2|]; try contradiction;
    cbn [is_None andb].
  - destruct Hev as (i & hi & Hi & Hhi & Hbefore & Hvi & Hti).
    exists i, hi. split; [now apply nth_error_snoc_old|].
    split; [exact Hhi|]. split.
    + intros j hj Hj Hnth. apply nth_error_snoc in Hnth.
      destruct Hnth as [[_ Hold] | [Hj' _]]; [exact (Hbefore j hj Hj Hold)|].
      apply nth_error_in_range in Hi. lia.
    + split; now apply nth_error_snoc_old.
  - destruct (Py.le 2.0 (h s')) eqn:Hle.
    + apply le_true in Hle.
      exists (List.length (heights s)), (h s').
      split; [apply nth_error_snoc_new|]. split; [exact Hle|]. split.
      * intros j hj Hj Hnth. apply nth_error_snoc in Hnth.
        destruct Hnth as [[_ Hold] | [Hj' _]]; [|lia].
        apply nth_error_In in Hold.
        exact (proj1 (Forall_forall _ _) Hev hj Hold).
      * split; [rewrite Lh, <- Lv | rewrite Lh]; apply nth_error_snoc_new.
    + apply le_false in Hle. apply Forall_app. split; [exact Hev|].
      constructor; [exact Hle | constructor].
Qed.

(** The ramp departure returned is the first record at 2 m or above: its
    velocity and its time, or 0 and 0 when no record reaches 2 m. *)
Theorem returned_ramp_departure_is_first (fuel : nat) (r : Results.dict) :
  simulate fuel = Some (Ok r) ->
  (Forall (fun hj => hj < 2.0) (Results.heights r)
   /\ Results.velocita_2m r = 0 /\ Results.tempo_2m r = 0)
  \/ (exists i hi vi ti,
        nth_error (Results.heights r) i = Some hi /\ 2.0 <= hi
        /\ (forall j hj, (j < i)%nat ->
                         nth_error (Results.heights r) j = Some hj ->
                         hj < 2.0)
        /\ nth_error (Results.velocities r) i = Some vi
        /\ nth_error (Results.times r) i = Some ti
        /\ Results.velocita_2m r == vi /\ Results.tempo_2m r == ti).
Proof.
  intro Hret.
  destruct (simulate_returns np_exp self dt (fun _ => True) fuel r)
    as (s0 & s & _ & _ & _ & Hrun & ->); try tauto.
  assert (Hev : ramp_event s).
  { apply (while_true_keeps np_exp self dt (fun s => ramp_event s))
      with (fuel := fuel) (s := start) (fl := break_apogee).
    - intros s1 fl1 s2 Hs1 H1 Hb1. exact (ramp_event_kept _ _ _ Hs1 H1 Hb1).
    - apply series_ok_start.
    - cbn. constructor; [reflexivity | constructor].
    - exact Hrun. }
  cbn [Results.heights Results.velocities Results.times Results.velocita_2m
       Results.tempo_2m].
  destruct (v_at_2m s) as [v2|], (t_at_2m s) as [t2|]; try contradiction.
  - right. destruct Hev as (i & hi & Hi & Hhi & Hbefore & Hvi & Hti).
    exists i, hi, v2, t2.
    repeat (split; [assumption|]). split; apply or_zero_Some.
  - left. split; [exact Hev|]. split; reflexivity.
Qed.

(** What the recorded series keep, turn after turn: each record is the
    Euler step of the record before it, and the thrust recorded with it
    is the thrust at the time of the record before it. *)
Local Abbreviation euler_steps s :=
  (last (heights s) 0 = h s /\ last (velocities s) 0 = v s
   /\ forall i hi vi ti h1 v1 th1,
        nth_error (heights s) i = Some hi ->
        nth_error (velocities s) i = Some vi ->
        nth_error (times s) i = Some ti ->
        nth_error (heights s) (S i) = Some h1 ->
        nth_error (velocities s) (S i) = Some v1 ->
        nth_error (thrusts s) (S i) = Some th1 ->
        th1 = thrust self ti
        /\ h1 = hi + v1 * dt
        /\ exists m a,
             mass self ti = Ok m
             /\ truediv (thrust self ti - m * g self - drag_at vi hi) m
                = Ok a
             /\ v1 = vi + a * dt).

Lemma euler_steps_kept (s s' : locals) (fl : flow) :
  series_ok self dt s -> euler_steps s -> body s = Ok (fl, s') ->
  euler_steps s'.
Proof.
  intros Hs (Hlh & Hlv & Hsteps) Hb.
  destruct (body_inv _ _ _ _ _ _ Hb) as (_ & Hts & Hhs & Hvs & Hths & _).
  destruct (body_step _ _ _ _ _ _ Hb) as (Hnewton & Hh' & _).
  pose proof (len_heights _ _ _ Hs) as Lh.
  pose proof (len_velocities _ _ _ Hs) as Lv.
  pose proof (len_thrusts _ _ _ Hs) as Lth.
  split; [rewrite Hhs; apply last_last|].
  split; [rewrite Hvs; apply last_last|].
  intros i hi vi ti h1 v1 th1 Hhi Hvi Hti Hh1 Hv1 Hth1.
  rewrite Hhs in Hhi, Hh1. rewrite Hvs in Hvi, Hv1. rewrite Hts in Hti.
  rewrite Hths in Hth1.
  apply nth_error_snoc in Hh1. apply nth_error_snoc in Hv1.
  apply nth_error_snoc in Hth1.
  destruct Hh1 as [[Hin Hh1] | [Hi ->]].
  - destruct Hv1 as [[_ Hv1] | [Hi' _]]; [|lia].
    destruct Hth1 as [[_ Hth1] | [Hi' _]]; [|lia].
    apply nth_error_snoc in Hhi. apply nth_error_snoc in Hvi.
    apply nth_error_snoc in Hti.
    destruct Hhi as [[_ Hhi] | [Hi' _]]; [|lia].
    destruct Hvi as [[_ Hvi] | [Hi' _]]; [|lia].
    destruct Hti as [[_ Hti] | [Hi' _]]; [|lia].
    exact (Hsteps i hi vi ti h1 v1 th1 Hhi Hvi Hti Hh1 Hv1 Hth1).
  - destruct Hv1 as [[Hi' _] | [_ ->]]; [lia|].
    destruct Hth1 as [[Hi' _] | [_ ->]]; [lia|].
    apply nth_error_snoc in Hhi. apply nth_error_snoc in Hvi.
    apply nth_error_snoc in Hti.
    destruct Hhi as [[_ Hhi] | [Hi' _]]; [|lia].
    destruct Hvi as [[_ Hvi] | [Hi' _]]; [|lia].
    destruct Hti as [[_ Hti] | [Hi' _]]; [|lia].
    apply (nth_error_is_last _ 0) in Hhi; [|exact Hi].
    apply (nth_error_is_last _ 0) in Hvi; [|lia].
    apply (nth_error_is_last _ 0) in Hti; [|lia].
    rewrite Hlh in Hhi. rewrite Hlv in Hvi.
    rewrite (last_time _ _ _ Hs) in Hti. subst hi vi ti.
    split; [reflexivity|]. split; [exact Hh'|]. exact Hnewton.
Qed.

(** In the series returned, each record is the Euler step of the record
    before it: the velocity moves by the acceleration times [dt], with the
    mass and the thrust at the earlier time and the drag of the earlier
    velocity if it is upward; the height moves by the new velocity times
    [dt]; and the thrust stored in a record is the thrust at the time of
    the record before it, one step late in the thrust series. *)
Theorem returned_series_are_euler_steps (fuel : nat) (r : Results.dict) :
  simulate fuel = Some (Ok r) ->
  forall i hi vi ti h1 v1 th1,
    nth_error (Results.heights r) i = Some hi ->
    nth_error (Results.velocities r) i = Some vi ->
    nth_error (Results.times r) i = Some ti ->
    nth_error (Results.heights r) (S i) = Some h1 ->
    nth_error (Results.velocities r) (S i) = Some v1 ->
    nth_error (Results.thrusts r) (S i) = Some th1 ->
    th1 = thrust self ti
    /\ h1 = hi + v1 * dt
    /\ exists m a,
         mass self ti = Ok m
         /\ truediv (thrust self ti - m * g self - drag_at vi hi) m = Ok a
         /\ v1 = vi + a * dt.
Proof.
  intro Hret.
  destruct (simulate_returns np_exp self dt (fun _ => True) fuel r)
    as (s0 & s & _ & _ & _ & Hrun & ->); try tauto.
  assert (Heuler : euler_steps s).
  { apply (while_true_keeps np_exp self dt (fun s => euler_steps s))
      with (fuel := fuel) (s := start) (fl := break_apogee).
    - intros s1 fl1 s2 Hs1 H1 Hb1. exact (euler_steps_kept _ _ _ Hs1 H1 Hb1).
    - apply series_ok_start.
    - split; [reflexivity|]. split; [reflexivity|].
      intros i hi vi ti h1 v1 th1 _ _ _ Hh1. destruct i; discriminate.
    - exact Hrun. }
  exact (proj2 (proj2 Heuler)).
Qed.

End Recorded.

Lemma simulate_series_lengths (np_exp : Q -> Q) (self : RocketSimulator.t)
    (dt : Q) (fuel : nat) (r : Simulate.Results.dict) :
  Simulate.simulate np_exp self dt fuel = Some (Ok r) ->
  List.length (Simulate.Results.heights r)
  = List.length (Simulate.Results.times r)
  /\ List.length (Simulate.Results.velocities r)
     = List.length (Simulate.Results.times r)
  /\ List.length (Simulate.Results.thrusts r)
     = List.length (Simulate.Results.times r).
Proof.
  intro Hret.
  destruct (simulate_returns np_exp self dt (fun _ => True) fuel r)
    as (s0 & s & Hs0 & _ & Hb & _ & ->); try tauto.
  pose proof (series_ok_body _ _ _ _ _ _ Hs0 Hb) as [Lh Lv Lth _ _ _ _ _ _].
  cbn. repeat split; assumption.
Qed.

(** ** A motor too weak to lift the vehicle *)

Section Grounded.

Import RocketSimulator Simulate.

Variable np_exp : Q -> Q.
Variable self : RocketSimulator.t.
Variable dt : Q.

Hypothesis Hdt : 0 < dt.
Hypothesis Hburn : 0 < burn_time self.
Hypothesis Hm0 : 0 < m0 self.
Hypothesis Hmf : 0 < mf self.
Hypothesis Hfinal : mf self == m0 self - mp self.
Hypothesis Hweak :
  forall t m, 0 <= t -> mass self t = Ok m -> thrust self t <= m * g self.

Local Abbreviation body := (Simulate.body np_exp self dt).
Local Abbreviation while_true := (Simulate.while_true np_exp self dt).
Local Abbreviation simulate := (Simulate.simulate np_exp self dt).
Local Abbreviation start := (Simulate.start self).




End Grounded.

(** ** A time step of zero *)

Section Frozen.

Import RocketSimulator Simulate.

Variable np_exp : Q -> Q.
Variable self : RocketSimulator.t.

Hypothesis Hburn : 0 < burn_time self.
Hypothesis Hm0 : ~ m0 self == 0.

Local Abbreviation body := (Simulate.body np_exp self 0).
Local Abbreviation while_true := (Simulate.while_true np_exp self 0).

Lemma frozen_body (s : locals) :
  t s == 0 -> v s == 0 -> h s == 0 ->
  exists s', body s = Ok (next_turn, s')
             /\ t s' == 0 /\ v s' == 0 /\ h s' == 0.
Proof.
  intros Ht Hv Hh.
  unfold Simulate.body.
  rewrite mass_during_burn by lra. cbn [Py.bind].
  set (m := m0 self - mp self / burn_time self * t s).
  assert (Hm : m == m0 self) by (unfold m; rewrite Ht; ring).
  rewrite divide_nonzero by (rewrite Hm; exact Hm0). cbn [Py.bind].
  match goal with
  | |- context [Np.divide _ _ _] => fail
  | |- context [v s + ?acc * 0] => set (a := acc)
  end.
  assert (Hv' : v s + a * 0 == 0) by (rewrite Hv; ring).
  assert (Hh' : h s + (v s + a * 0) * 0 == 0) by (rewrite Hh; ring).
  assert (Ht' : t s + 0 == 0) by (rewrite Ht; ring).
  assert (C1 : Py.lt 0 (h s + (v s + a * 0) * 0) = false)
    by (apply lt_false; lra).
  assert (C2 : Py.lt 300 (t s + 0) = false) by (apply lt_false; lra).
  assert (C3 : Py.lt (h s + (v s + a * 0) * 0) (-10) = false)
    by (apply lt_false; lra).
  rewrite C1, C2, C3, andb_false_r. cbn [orb].
  eexists. split; [reflexivity|]. cbn. repeat split; assumption.
Qed.

(** With [dt = 0] nothing moves and the loop has no way out: however
    many turns are allowed, [simulate] is still running. *)
Theorem zero_time_step_never_ends :
  forall fuel, Simulate.simulate np_exp self 0 fuel = None.
Proof.
  assert (Hloop : forall fuel s,
             t s == 0 -> v s == 0 -> h s == 0 -> while_true fuel s = None).
  { induction fuel as [|fuel IH]; intros s Ht Hv Hh; [reflexivity|].
    destruct (frozen_body s Ht Hv Hh) as (s' & Hb & Ht' & Hv' & Hh').
    cbn [Simulate.while_true]. rewrite Hb. exact (IH s' Ht' Hv' Hh'). }
  intro fuel. unfold Simulate.simulate.
  rewrite (Hloop fuel (Simulate.start self)); reflexivity.
Qed.

End Frozen.

Lemma zero_time_step_never_ends_witness :
  Simulate.simulate Examples.flat Examples.manual 0 (Z.to_nat 1000000) = None.
Proof.
  apply (zero_time_step_never_ends Examples.flat Examples.manual).
  - reflexivity.
  - vm_compute. discriminate.
Defined.



Lemma returned_apogee_is_last_record_witness :
  exists r,
    Simulate.simulate Examples.flat Examples.hop 0.5 10 = Some (Ok r)
    /\ 0 < Simulate.Results.apogeo r
    /\ last (Simulate.Results.heights r) 0 = Simulate.Results.apogeo r
    /\ last (Simulate.Results.velocities r) 0 <= 0
    /\ last (Simulate.Results.times r) 0 = Simulate.Results.tempo_apogeo r.
Proof.
  destruct (Simulate.simulate Examples.flat Examples.hop 0.5 10)
    as [[r|e|]|] eqn:Hrun; try (vm_compute in Hrun; discriminate).
  exists r. split; [reflexivity|].
  exact (returned_apogee_is_last_record Examples.flat Examples.hop 0.5 10 r
           Hrun).
Defined.

Lemma returned_apogee_is_first_witness :
  exists r,
    Simulate.simulate Examples.flat Examples.hop 0.5 10 = Some (Ok r)
    /\ forall i hi vi ti,
         (S i < List.length (Simulate.Results.times r))%nat ->
         nth_error (Simulate.Results.heights r) i = Some hi ->
         nth_error (Simulate.Results.velocities r) i = Some vi ->
         nth_error (Simulate.Results.times r) i = Some ti ->
         ~ (vi <= 0 /\ 0 < hi) /\ ti <= 300 /\ - (10) <= hi.
Proof.
  destruct (Simulate.simulate Examples.flat Examples.hop 0.5 10)
    as [[r|e|]|] eqn:Hrun; try (vm_compute in Hrun; discriminate).
  exists r. split; [reflexivity|].
  exact (returned_apogee_is_first Examples.flat Examples.hop 0.5 10 r Hrun).
Defined.

Lemma returned_ramp_departure_is_first_witness :
  exists r,
    Simulate.simulate Examples.flat Examples.hop 0.5 10 = Some (Ok r)
    /\ ((Forall (fun hj => hj < 2.0) (Simulate.Results.heights r)
         /\ Simulate.Results.velocita_2m r = 0
         /\ Simulate.Results.tempo_2m r = 0)
        \/ (exists i hi vi ti,
              nth_error (Simulate.Results.heights r) i = Some hi
              /\ 2.0 <= hi
              /\ (forall j hj, (j < i)%nat ->
                    nth_error (Simulate.Results.heights r) j = Some hj ->
                    hj < 2.0)
              /\ nth_error (Simulate.Results.velocities r) i = Some vi
              /\ nth_error (Simulate.Results.times r) i = Some ti
              /\ Simulate.Results.velocita_2m r == vi
              /\ Simulate.Results.tempo_2m r == ti)).
Proof.
  destruct (Simulate.simulate Examples.flat Examples.hop 0.5 10)
    as [[r|e|]|] eqn:Hrun; try (vm_compute in Hrun; discriminate).
  exists r. split; [reflexivity|].
  exact (returned_ramp_departure_is_first Examples.flat Examples.hop 0.5 10 r
           Hrun).
Defined.

Lemma returned_series_are_euler_steps_witness :
  exists r,
    Simulate.simulate Examples.flat Examples.hop 0.5 10 = Some (Ok r)
    /\ forall i hi vi h1 v1,
         nth_error (Simulate.Results.heights r) i = Some hi ->
         nth_error (Simulate.Results.velocities r) i = Some vi ->
         nth_error (Simulate.Results.heights r) (S i) = Some h1 ->
         nth_error (Simulate.Results.velocities r) (S i) = Some v1 ->
         h1 = hi + v1 * 0.5.
Proof.
  destruct (Simulate.simulate Examples.flat Examples.hop 0.5 10)
    as [[r|e|]|] eqn:Hrun; try (vm_compute in Hrun; discriminate).
  exists r. split; [reflexivity|].
  intros i hi vi h1 v1 Hhi Hvi Hh1 Hv1.
  destruct (simulate_series_lengths Examples.flat Examples.hop 0.5 10 r Hrun)
    as (Lh & Lv & Lth).
  destruct (nth_error_defined (Simulate.Results.times r) i) as (ti & Hti).
  { rewrite <- Lh. exact (nth_error_in_range _ _ _ Hhi). }
  destruct (nth_error_defined (Simulate.Results.thrusts r) (S i))
    as (th1 & Hth1).
  { rewrite Lth, <- Lh. exact (nth_error_in_range _ _ _ Hh1). }
  exact (proj1 (proj2 (returned_series_are_euler_steps Examples.flat
                         Examples.hop 0.5 10 r Hrun i hi vi ti h1 v1 th1
                         Hhi Hvi Hti Hh1 Hv1 Hth1))).
Defined.
